(** * cron_exit: fork filter, namespace pid resolver and exit reporter

    A shallow embedding of [src/agent/ebpf/cron_exit.c] (with the kernel types
    of [src/agent/ebpf/vmlinux.h]) and the properties of its two tracepoint
    handlers.

    - C integers are [Z] with the wrap-around of each conversion written out.
    - Kernel objects live in a heap indexed by address; [BPF_CORE_READ] is a
      guarded read that yields 0 when the address does not hold an object.
    - The BPF maps are the state threaded through the handlers; an array read
      outside its bounds aborts the computation ([None]).  *)

From Stdlib Require Import ZArith Lia List.
From Stdlib.Strings Require Import Byte String.
From stdpp Require Import base option list vector strings gmap fin_maps.

Local Open Scope Z_scope.

(** ** C integer conversions *)

Definition to_u8 (z : Z) : Z := z mod 2 ^ 8.
Definition to_u32 (z : Z) : Z := z mod 2 ^ 32.
Definition to_u64 (z : Z) : Z := z mod 2 ^ 64.
Definition to_i32 (z : Z) : Z := (z + 2 ^ 31) mod 2 ^ 32 - 2 ^ 31.

#[global] Arguments to_u8 : simpl never.
#[global] Arguments to_u32 : simpl never.
#[global] Arguments to_u64 : simpl never.
#[global] Arguments to_i32 : simpl never.

(** ** vmlinux.h *)

(** [enum { BPF_ANY, BPF_NOEXIST, BPF_EXIST, BPF_F_LOCK }] and
    [BPF_F_CURRENT_CPU]. *)
Definition BPF_ANY : Z := 0.
Definition BPF_NOEXIST : Z := 1.
Definition BPF_EXIST : Z := 2.
Definition BPF_F_LOCK : Z := 4.
Definition BPF_F_CURRENT_CPU : Z := 0xffffffff.

(** Kernel addresses; [NULL] is address 0. *)
Definition ptr := Z.
Definition NULL : ptr := 0.

Module upid.
Record t := mk { nr : Z; ns : ptr }.
End upid.

Module pid.
Record t := mk { level : Z; numbers : vec upid.t 8 }.
End pid.

Module task_struct.
Record t := mk
  { pid : Z;
    real_parent : ptr;
    thread_pid : ptr;
    exit_code : Z;
    exit_signal : Z }.
End task_struct.

(** ** cron_exit.c: tracepoint contexts and the event record *)

Module trace_event_raw_sched_process_fork.
Record t := mk
  { type : Z;
    flags : Z;
    preempt_count : Z;
    pid : Z;
    parent_comm : vec byte 16;
    parent_pid : Z;
    child_comm : vec byte 16;
    child_pid : Z }.
End trace_event_raw_sched_process_fork.

Module trace_event_raw_sched_process_template.
Record t := mk
  { type : Z;
    flags : Z;
    preempt_count : Z;
    pid : Z }.
End trace_event_raw_sched_process_template.

Module event.
Record t := mk
  { pid : Z;
    parent_pid : Z;
    ns_pid : Z;
    ns_parent_pid : Z;
    exit_code : Z;
    comm : vec byte 16 }.
End event.

(** The declaration of [struct event], field by field, for its layout. *)
Inductive ctype := U8 | U32 | I32 | CArray (elt : ctype) (len : nat).

Fixpoint sizeof (c : ctype) : Z :=
  match c with
  | U8 => 1
  | U32 | I32 => 4
  | CArray elt len => sizeof elt * Z.of_nat len
  end.

Fixpoint alignof (c : ctype) : Z :=
  match c with
  | U8 => 1
  | U32 | I32 => 4
  | CArray elt _ => alignof elt
  end.

Definition align_up (off a : Z) : Z := (off + a - 1) / a * a.

(** Offsets of the members under natural alignment, from offset [off]. *)
Fixpoint member_offsets (off : Z) (ms : list ctype) : list Z :=
  match ms with
  | [] => []
  | c :: ms' =>
      let o := align_up off (alignof c) in
      o :: member_offsets (o + sizeof c) ms'
  end.

Definition struct_align (ms : list ctype) : Z :=
  fold_right (fun c a => Z.max (alignof c) a) 1 ms.

Definition struct_size (ms : list ctype) : Z :=
  let end_ := fold_left (fun off c => align_up off (alignof c) + sizeof c) ms 0 in
  align_up end_ (struct_align ms).

Definition event_members : list (string * ctype) :=
  [ ("pid", U32); ("parent_pid", U32); ("ns_pid", U32);
    ("ns_parent_pid", U32); ("exit_code", I32); ("comm", CArray U8 16) ]%string.

(** ** The running kernel, as one handler invocation sees it *)

Record kernel := mk_kernel
  { current_comm : vec byte 16;      (* current->comm *)
    current_pid_tgid : Z;            (* tgid << 32 | pid *)
    current_task : ptr;              (* current *)
    tasks : gmap Z task_struct.t;    (* live task_structs, by address *)
    pids : gmap Z pid.t;             (* live struct pids, by address *)
    perf_room : bool                 (* this CPU's perf buffer takes a record *)
  }.

Definition deref_task (k : kernel) (p : ptr) : option task_struct.t :=
  if decide (p = NULL) then None else tasks k !! p.

Definition deref_pid (k : kernel) (p : ptr) : option pid.t :=
  if decide (p = NULL) then None else pids k !! p.

(** [BPF_CORE_READ(p, field)]: a [bpf_probe_read_kernel] of the field; when
    the read faults the destination is zero-filled. *)
Definition core_read_task (k : kernel) (p : ptr) (field : task_struct.t → Z) : Z :=
  match deref_task k p with
  | Some t => field t
  | None => 0
  end.

Definition core_read_pid (k : kernel) (p : ptr) (field : pid.t → Z) : Z :=
  match deref_pid k p with
  | Some s => field s
  | None => 0
  end.

(** [BPF_CORE_READ(p, numbers[i].nr)].  The element address is computed
    from [i]; an index outside [struct upid numbers[8]] is an out-of-bounds
    access ([None]). *)
Definition core_read_pid_numbers_nr (k : kernel) (p : ptr) (i : Z) : option Z :=
  if (0 <=? i) && (i <? 8) then
    match deref_pid k p with
    | Some s => (to_i32 ∘ upid.nr) <$> vec_to_list (pid.numbers s) !! Z.to_nat i
    | None => Some 0
    end
  else None.

(** ** The BPF maps and the handler monad *)

Definition max_entries : Z := 10240.

Record maps := mk_maps
  { monitored_pids : gmap Z Z;       (* BPF_MAP_TYPE_HASH, u32 -> u8 *)
    events : list event.t            (* records delivered on the perf array *)
  }.

Definition set_monitored_pids (m : gmap Z Z) (w : maps) : maps :=
  {| monitored_pids := m; events := events w |}.

Definition set_events (l : list event.t) (w : maps) : maps :=
  {| monitored_pids := monitored_pids w; events := l |}.

(** State of the maps, with failure for an aborted program. *)
Definition M (A : Type) : Type := maps → option (A * maps).

#[global] Instance M_ret : MRet M := λ A x w, Some (x, w).
#[global] Instance M_bind : MBind M := λ A B f m w,
  match m w with
  | Some (x, w') => f x w'
  | None => None
  end.

Definition lift {A} (o : option A) : M A := λ w,
  match o with
  | Some x => Some (x, w)
  | None => None
  end.

(** *** Kernel helpers *)

Definition EINVAL : Z := 22.
Definition EEXIST : Z := 17.
Definition ENOENT : Z := 2.
Definition E2BIG : Z := 7.
Definition ENOSPC : Z := 28.

Definition bpf_get_current_comm (k : kernel) : vec byte 16 := current_comm k.
Definition bpf_get_current_pid_tgid (k : kernel) : Z := to_u64 (current_pid_tgid k).
Definition bpf_get_current_task (k : kernel) : ptr := current_task k.

(** Hash-map update: an existing key is overwritten in place; a new key is
    refused with [-E2BIG] once the map holds [max_entries]. *)
Definition bpf_map_update_elem (key value flags : Z) : M Z := λ w,
  let m := monitored_pids w in
  if BPF_EXIST <? flags then Some (- EINVAL, w)
  else match m !! key with
       | Some _ =>
           if flags =? BPF_NOEXIST then Some (- EEXIST, w)
           else Some (0, set_monitored_pids (<[key := value]> m) w)
       | None =>
           if flags =? BPF_EXIST then Some (- ENOENT, w)
           else if max_entries <=? Z.of_nat (size m) then Some (- E2BIG, w)
           else Some (0, set_monitored_pids (<[key := value]> m) w)
       end.

Definition bpf_map_lookup_elem (key : Z) : M (option Z) := λ w,
  Some (monitored_pids w !! key, w).

Definition bpf_map_delete_elem (key : Z) : M Z := λ w,
  match monitored_pids w !! key with
  | Some _ => Some (0, set_monitored_pids (delete key (monitored_pids w)) w)
  | None => Some (- ENOENT, w)
  end.

(** Best-effort write to the current CPU's buffer: the record is appended
    or, without room, dropped with an error code. *)
Definition bpf_perf_event_output (k : kernel) (flags : Z) (evt : event.t) : M Z := λ w,
  if perf_room k then Some (0, set_events (events w ++ [evt]) w)
  else Some (- ENOSPC, w).

(** ** handle_fork *)

Definition handle_fork (k : kernel) (ctx : trace_event_raw_sched_process_fork.t) : M Z :=
  let parent_comm := bpf_get_current_comm k in
  if (Byte.eqb (parent_comm !!! 0%fin) "c"%byte && Byte.eqb (parent_comm !!! 1%fin) "r"%byte
      && Byte.eqb (parent_comm !!! 2%fin) "o"%byte && Byte.eqb (parent_comm !!! 3%fin) "n"%byte)
     || (Byte.eqb (parent_comm !!! 0%fin) "C"%byte && Byte.eqb (parent_comm !!! 1%fin) "R"%byte
         && Byte.eqb (parent_comm !!! 2%fin) "O"%byte && Byte.eqb (parent_comm !!! 3%fin) "N"%byte)
     || (Byte.eqb (parent_comm !!! 0%fin) "c"%byte && Byte.eqb (parent_comm !!! 1%fin) "r"%byte
         && Byte.eqb (parent_comm !!! 2%fin) "o"%byte && Byte.eqb (parent_comm !!! 3%fin) "n"%byte
         && Byte.eqb (parent_comm !!! 4%fin) "d"%byte)
  then
    let child_pid := to_u32 (trace_event_raw_sched_process_fork.child_pid ctx) in
    let val := 1 in
    _ ← bpf_map_update_elem child_pid val BPF_ANY;
    mret 0
  else mret 0.

(** ** get_task_ns_pid *)

Definition get_task_ns_pid (k : kernel) (task : ptr) : option Z :=
  let pid_struct := core_read_task k task task_struct.thread_pid in
  let level := to_u32 (core_read_pid k pid_struct pid.level) in
  if (0 <? level) && (level <? 8) then
    to_u32 <$> core_read_pid_numbers_nr k pid_struct level
  else
    to_u32 <$> core_read_pid_numbers_nr k pid_struct 0.

(** ** handle_exit *)

Definition handle_exit (k : kernel) (ctx : trace_event_raw_sched_process_template.t) : M Z :=
  let pid := to_u32 (Z.shiftr (bpf_get_current_pid_tgid k) 32) in
  exists_ ← bpf_map_lookup_elem pid;
  match exists_ with
  | Some _ =>
      let comm := bpf_get_current_comm k in
      let task := bpf_get_current_task k in
      let exit_code := to_i32 (core_read_task k task task_struct.exit_code) in
      let parent_pid :=
        to_u32 (core_read_task k (core_read_task k task task_struct.real_parent)
                               task_struct.pid) in
      ns_pid ← lift (get_task_ns_pid k task);
      let parent_task := core_read_task k task task_struct.real_parent in
      ns_parent_pid ←
        (if decide (parent_task ≠ NULL) then lift (get_task_ns_pid k parent_task)
         else mret 0);
      let code := Z.land (Z.shiftr exit_code 8) 0xFF in
      let code :=
        if decide (Z.land exit_code 0x7F ≠ 0)
        then to_i32 (128 + Z.land exit_code 0x7F)
        else code in
      let evt :=
        {| event.pid := pid;
           event.parent_pid := parent_pid;
           event.ns_pid := ns_pid;
           event.ns_parent_pid := ns_parent_pid;
           event.exit_code := code;
           event.comm := comm |} in
      _ ← bpf_perf_event_output k BPF_F_CURRENT_CPU evt;
      _ ← bpf_map_delete_elem pid;
      mret 0
  | None => mret 0
  end.

(** The pid an exit is reported under: the upper half of [pid_tgid]. *)
Definition exit_pid (k : kernel) : Z :=
  to_u32 (Z.shiftr (bpf_get_current_pid_tgid k) 32).

(** ** Vocabulary of the statements *)

(** The index [get_task_ns_pid] reads at, for a depth counter [level]. *)
Definition ns_index (level : Z) : Z :=
  if (0 <? level) && (level <? 8) then level else 0.

(** The id stored at index [i] of a struct pid. *)
Definition stored_id (s : pid.t) (i : Z) : option Z :=
  upid.nr <$> vec_to_list (pid.numbers s) !! Z.to_nat i.

(** The wait status, parent handle and event that [handle_exit] assembles
    for the current task. *)
Definition raw_status (k : kernel) : Z :=
  to_i32 (core_read_task k (bpf_get_current_task k) task_struct.exit_code).

Definition real_parent_of (k : kernel) : ptr :=
  core_read_task k (bpf_get_current_task k) task_struct.real_parent.

Definition reported_code (raw : Z) : Z :=
  if decide (Z.land raw 0x7F ≠ 0) then 128 + Z.land raw 0x7F
  else Z.land (Z.shiftr raw 8) 0xFF.

Definition assembled_event (k : kernel) : event.t :=
  {| event.pid := exit_pid k;
     event.parent_pid := to_u32 (core_read_task k (real_parent_of k) task_struct.pid);
     event.ns_pid := default 0 (get_task_ns_pid k (bpf_get_current_task k));
     event.ns_parent_pid := default 0 (get_task_ns_pid k (real_parent_of k));
     event.exit_code := reported_code (raw_status k);
     event.comm := bpf_get_current_comm k |}.

(** The maps after a tracked exit. *)
Definition after_exit (k : kernel) (w : maps) : maps :=
  {| monitored_pids := delete (exit_pid k) (monitored_pids w);
     events := if perf_room k then events w ++ [assembled_event k] else events w |}.

(** The test [handle_fork] makes on the 16-byte name. *)
Definition name_filter (parent_comm : vec byte 16) : bool :=
  (Byte.eqb (parent_comm !!! 0%fin) "c"%byte && Byte.eqb (parent_comm !!! 1%fin) "r"%byte
   && Byte.eqb (parent_comm !!! 2%fin) "o"%byte && Byte.eqb (parent_comm !!! 3%fin) "n"%byte)
  || (Byte.eqb (parent_comm !!! 0%fin) "C"%byte && Byte.eqb (parent_comm !!! 1%fin) "R"%byte
      && Byte.eqb (parent_comm !!! 2%fin) "O"%byte && Byte.eqb (parent_comm !!! 3%fin) "N"%byte)
  || (Byte.eqb (parent_comm !!! 0%fin) "c"%byte && Byte.eqb (parent_comm !!! 1%fin) "r"%byte
      && Byte.eqb (parent_comm !!! 2%fin) "o"%byte && Byte.eqb (parent_comm !!! 3%fin) "n"%byte
      && Byte.eqb (parent_comm !!! 4%fin) "d"%byte).

(** The three fixed patterns, as prefixes of the name buffer. *)
Definition has_prefix (pat : string) (c : vec byte 16) : Prop :=
  take (String.length pat) (vec_to_list c) = String.list_byte_of_string pat.

Definition scheduler_name (c : vec byte 16) : Prop :=
  has_prefix "cron" c ∨ has_prefix "CRON" c ∨ has_prefix "crond" c.

(** The key [handle_fork] upserts. *)
Definition fork_child (ctx : trace_event_raw_sched_process_fork.t) : Z :=
  to_u32 (trace_event_raw_sched_process_fork.child_pid ctx).

(** An upsert of [key] goes through: the key is present or there is room. *)
Definition admits (m : gmap Z Z) (key : Z) : Prop :=
  is_Some (m !! key) ∨ Z.of_nat (size m) < max_entries.

(** *** Sequences of tracepoint firings *)

Inductive tracepoint :=
  | sched_process_fork (k : kernel) (ctx : trace_event_raw_sched_process_fork.t)
  | sched_process_exit (k : kernel) (ctx : trace_event_raw_sched_process_template.t).

Definition fire (e : tracepoint) : M Z :=
  match e with
  | sched_process_fork k ctx => handle_fork k ctx
  | sched_process_exit k ctx => handle_exit k ctx
  end.

Fixpoint run (evs : list tracepoint) (w : maps) : option maps :=
  match evs with
  | [] => Some w
  | e :: evs' =>
      match fire e w with
      | Some (_, w') => run evs' w'
      | None => None
      end
  end.

(** The firing is a fork whose upsert the map refuses. *)
Definition insert_lost (e : tracepoint) (w : maps) : bool :=
  match e with
  | sched_process_fork k ctx =>
      name_filter (bpf_get_current_comm k)
      && match bpf_map_update_elem (fork_child ctx) 1 BPF_ANY w with
         | Some (rc, _) => negb (rc =? 0)
         | None => true
         end
  | sched_process_exit _ _ => false
  end.

Fixpoint no_insert_lost (evs : list tracepoint) (w : maps) : bool :=
  match evs with
  | [] => true
  | e :: evs' =>
      negb (insert_lost e w)
      && match fire e w with
         | Some (_, w') => no_insert_lost evs' w'
         | None => false
         end
  end.

(** [e] is a fork of child [p] by a process with a scheduler name. *)
Definition enrolls (p : Z) (e : tracepoint) : Prop :=
  match e with
  | sched_process_fork k ctx =>
      scheduler_name (bpf_get_current_comm k) ∧ fork_child ctx = p
  | sched_process_exit _ _ => False
  end.

(** [e] is an exit processed for pid [p]. *)
Definition exit_of (p : Z) (e : tracepoint) : Prop :=
  match e with
  | sched_process_fork _ _ => False
  | sched_process_exit k _ => exit_pid k = p
  end.

(** Some fork in [evs] enrolled [p] and no exit for [p] follows it. *)
Definition pending (evs : list tracepoint) (p : Z) : Prop :=
  ∃ pre e post,
    evs = pre ++ e :: post ∧ enrolls p e ∧ ∀ e', e' ∈ post → ¬ exit_of p e'.

(** ** Sample kernel objects *)

(** [current->comm] for a name: its bytes, NUL-padded to 16. *)
Definition comm_of_string (s : string) : vec byte 16 :=
  fun_to_vec (λ i : fin 16, default "000"%byte (String.list_byte_of_string s !! fin_to_nat i)).

Definition upid_of (n : Z) : upid.t := {| upid.nr := n; upid.ns := 0 |}.

(** A struct pid nested [lvl] deep whose id at index [i] is [base + i]. *)
Definition sample_pid (lvl base : Z) : pid.t :=
  {| pid.level := lvl;
     pid.numbers := fun_to_vec (λ i : fin 8, upid_of (base + Z.of_nat (fin_to_nat i))) |}.

Definition sample_task (id : Z) (parent thread : ptr) (status : Z) : task_struct.t :=
  {| task_struct.pid := id;
     task_struct.real_parent := parent;
     task_struct.thread_pid := thread;
     task_struct.exit_code := status;
     task_struct.exit_signal := 17 |}.

(** Process 4242 (a child of cron, pid 900) exiting with wait status
    [status], in a pid namespace nested [lvl] deep. *)
Definition sample_exit (lvl status : Z) (room : bool) : kernel :=
  {| current_comm := comm_of_string "backup.sh";
     current_pid_tgid := Z.lor (Z.shiftl 4242 32) 4242;
     current_task := 0x1000;
     tasks := {[ 0x1000 := sample_task 4242 0x2000 0x1100 status;
                 0x2000 := sample_task 900 0 0x2100 0 ]};
     pids := {[ 0x1100 := sample_pid lvl 4242; 0x2100 := sample_pid 0 900 ]};
     perf_room := room |}.

(** The same process after its parent is gone from [real_parent]. *)
Definition sample_orphan_exit : kernel :=
  {| current_comm := comm_of_string "backup.sh";
     current_pid_tgid := Z.lor (Z.shiftl 4242 32) 4242;
     current_task := 0x1000;
     tasks := {[ 0x1000 := sample_task 4242 NULL 0x1100 0 ]};
     pids := {[ 0x1100 := sample_pid 0 4242 ]};
     perf_room := true |}.

Definition sample_fork (name : string) (child : Z) : kernel * trace_event_raw_sched_process_fork.t :=
  ({| current_comm := comm_of_string name;
      current_pid_tgid := Z.lor (Z.shiftl 900 32) 900;
      current_task := 0x2000;
      tasks := {[ 0x2000 := sample_task 900 0 0x2100 0 ]};
      pids := {[ 0x2100 := sample_pid 0 900 ]};
      perf_room := true |},
   {| trace_event_raw_sched_process_fork.type := 0;
      trace_event_raw_sched_process_fork.flags := 0;
      trace_event_raw_sched_process_fork.preempt_count := 0;
      trace_event_raw_sched_process_fork.pid := 900;
      trace_event_raw_sched_process_fork.parent_comm := comm_of_string name;
      trace_event_raw_sched_process_fork.parent_pid := 900;
      trace_event_raw_sched_process_fork.child_comm := comm_of_string name;
      trace_event_raw_sched_process_fork.child_pid := child |}).

Definition exit_ctx : trace_event_raw_sched_process_template.t :=
  {| trace_event_raw_sched_process_template.type := 0;
     trace_event_raw_sched_process_template.flags := 0;
     trace_event_raw_sched_process_template.preempt_count := 0;
     trace_event_raw_sched_process_template.pid := 4242 |}.

Definition no_maps : maps := {| monitored_pids := ∅; events := [] |}.
Definition tracking (pids : list Z) : maps :=
  {| monitored_pids := list_to_map ((λ p, (p, 1)) <$> pids); events := [] |}.


(** A sample history: cron forks 77 and 78, another process forks 79, then
    77 exits. *)
Definition exit_of_pid (p : Z) : kernel :=
  {| current_comm := comm_of_string "job";
     current_pid_tgid := Z.lor (Z.shiftl p 32) p;
     current_task := NULL;
     tasks := ∅;
     pids := ∅;
     perf_room := true |}.

Definition sample_history : list tracepoint :=
  [ sched_process_fork (sample_fork "cron" 77).1 (sample_fork "cron" 77).2;
    sched_process_fork (sample_fork "CRON" 78).1 (sample_fork "CRON" 78).2;
    sched_process_fork (sample_fork "bash" 79).1 (sample_fork "bash" 79).2;
    sched_process_exit (exit_of_pid 77) exit_ctx ].

(** ** Vocabulary of the further properties *)

(** The record one [handle_exit] invocation puts on the channel, if any. *)
Definition exit_report (k : kernel) (ctx : trace_event_raw_sched_process_template.t)
    (w : maps) : option event.t :=
  match handle_exit k ctx w with
  | Some (_, w') =>
      if (length (events w) <? length (events w'))%nat then last (events w') else None
  | None => None
  end.

(** The packing the decoder of [handle_exit] assumes, as its comment has
    it: [(status << 8) | signal]. *)
Definition wait_status (status signal : Z) : Z :=
  Z.lor (Z.shiftl status 8) signal.

(** The forks of a sequence that pass the name filter, and its exits. *)
Definition is_matching_fork (e : tracepoint) : bool :=
  match e with
  | sched_process_fork k _ => name_filter (bpf_get_current_comm k)
  | sched_process_exit _ _ => false
  end.

Definition is_exit (e : tracepoint) : bool :=
  match e with
  | sched_process_fork _ _ => false
  | sched_process_exit _ _ => true
  end.

Definition matching_forks (evs : list tracepoint) : nat :=
  length (List.filter is_matching_fork evs).

Definition exits (evs : list tracepoint) : nat :=
  length (List.filter is_exit evs).

(** Every entry of a tracking map is the marker 1 under a u32 key. *)
Definition well_keyed (m : gmap Z Z) : Prop :=
  ∀ p v, m !! p = Some v → v = 1 ∧ 0 ≤ p < 2 ^ 32.

(** Thread 4243 of process 4242 exiting. *)
Definition sample_thread_exit : kernel :=
  {| current_comm := comm_of_string "backup.sh";
     current_pid_tgid := Z.lor (Z.shiftl 4242 32) 4243;
     current_task := 0x1000;
     tasks := {[ 0x1000 := sample_task 4243 0x2000 0x1100 0 ]};
     pids := {[ 0x1100 := sample_pid 0 4243 ]};
     perf_room := true |}.

(** A task whose [thread_pid] is null. *)
Definition sample_no_pid_struct : kernel :=
  {| current_comm := comm_of_string "backup.sh";
     current_pid_tgid := Z.lor (Z.shiftl 4242 32) 4242;
     current_task := 0x1000;
     tasks := {[ 0x1000 := sample_task 4242 0x2000 NULL 0 ]};
     pids := ∅;
     perf_room := true |}.

(** * Properties *)

(** ** Integer conversions *)

Lemma to_u32_range z : 0 ≤ to_u32 z < 2 ^ 32.
Proof. unfold to_u32. apply Z.mod_pos_bound. lia. Qed.

Lemma to_i32_range z : - 2 ^ 31 ≤ to_i32 z < 2 ^ 31.
Proof.
  unfold to_i32.
  pose proof (Z.mod_pos_bound (z + 2 ^ 31) (2 ^ 32) ltac:(lia)). lia.
Qed.

Lemma to_u32_id z : 0 ≤ z < 2 ^ 32 → to_u32 z = z.
Proof. intros H. unfold to_u32. by apply Z.mod_small. Qed.

Lemma to_i32_id z : - 2 ^ 31 ≤ z < 2 ^ 31 → to_i32 z = z.
Proof. intros H. unfold to_i32. rewrite Z.mod_small; lia. Qed.

Lemma to_u32_to_i32 z : to_u32 (to_i32 z) = to_u32 z.
Proof.
  unfold to_u32, to_i32.
  rewrite Zminus_mod, Zmod_mod, <- Zminus_mod.
  f_equal. lia.
Qed.

Lemma land_0x7F_range z : 0 ≤ Z.land z 0x7F < 128.
Proof.
  change 0x7F with (Z.ones 7). rewrite Z.land_ones by lia.
  apply Z.mod_pos_bound. lia.
Qed.

Lemma land_0xFF_range z : 0 ≤ Z.land z 0xFF < 256.
Proof.
  change 0xFF with (Z.ones 8). rewrite Z.land_ones by lia.
  apply Z.mod_pos_bound. lia.
Qed.

(** ** Namespace pid resolver *)

Section Resolver.
Variable k : kernel.

Lemma numbers_lookup (s : pid.t) (i : Z) :
  0 ≤ i < 8 → is_Some (vec_to_list (pid.numbers s) !! Z.to_nat i).
Proof.
  intros Hi. apply lookup_lt_is_Some. rewrite length_vec_to_list. lia.
Qed.

Lemma core_read_pid_numbers_nr_in_bounds (p : ptr) (i : Z) :
  0 ≤ i < 8 → is_Some (core_read_pid_numbers_nr k p i).
Proof.
  intros Hi. unfold core_read_pid_numbers_nr.
  replace (0 <=? i) with true by (symmetry; apply Z.leb_le; lia).
  replace (i <? 8) with true by (symmetry; apply Z.ltb_lt; lia).
  simpl. destruct (deref_pid k p) as [s|]; [|by eexists].
  destruct (numbers_lookup s i Hi) as [u ->]. by eexists.
Qed.

Lemma core_read_pid_numbers_nr_out_of_bounds (p : ptr) (i : Z) :
  ¬ (0 ≤ i < 8) → core_read_pid_numbers_nr k p i = None.
Proof.
  intros Hi. unfold core_read_pid_numbers_nr.
  destruct (Z.leb_spec 0 i), (Z.ltb_spec i 8); simpl; try done. lia.
Qed.

Lemma ns_index_range level : 0 ≤ ns_index level < 8.
Proof.
  unfold ns_index.
  destruct (Z.ltb_spec 0 level), (Z.ltb_spec level 8); simpl; lia.
Qed.

Lemma ns_index_spec level :
  ns_index level = if decide (1 ≤ level ≤ 7) then level else 0.
Proof.
  unfold ns_index.
  destruct (Z.ltb_spec 0 level), (Z.ltb_spec level 8);
    case_decide; simpl; lia.
Qed.

Lemma get_task_ns_pid_unfold (task : ptr) :
  let pid_struct := core_read_task k task task_struct.thread_pid in
  let level := to_u32 (core_read_pid k pid_struct pid.level) in
  get_task_ns_pid k task
  = to_u32 <$> core_read_pid_numbers_nr k pid_struct (ns_index level).
Proof.
  intros pid_struct level. unfold get_task_ns_pid, ns_index.
  fold pid_struct. fold level.
  by destruct ((0 <? level) && (level <? 8)).
Qed.

Lemma get_task_ns_pid_total (task : ptr) : is_Some (get_task_ns_pid k task).
Proof.
  rewrite get_task_ns_pid_unfold.
  apply fmap_is_Some, core_read_pid_numbers_nr_in_bounds, ns_index_range.
Qed.

Lemma get_task_ns_pid_range (task : ptr) (v : Z) :
  get_task_ns_pid k task = Some v → 0 ≤ v < 2 ^ 32.
Proof.
  rewrite get_task_ns_pid_unfold. intros H.
  apply fmap_Some in H as (r & _ & ->). apply to_u32_range.
Qed.

(** Through a handle that holds no task every guarded read yields 0. *)
Lemma get_task_ns_pid_no_task (task : ptr) :
  deref_task k task = None → get_task_ns_pid k task = Some 0.
Proof.
  intros H. unfold get_task_ns_pid, core_read_task. rewrite H.
  unfold core_read_pid, core_read_pid_numbers_nr, deref_pid. simpl.
  reflexivity.
Qed.

Lemma get_task_ns_pid_stored (task : ptr) (t : task_struct.t) (s : pid.t) :
  deref_task k task = Some t →
  deref_pid k (task_struct.thread_pid t) = Some s →
  get_task_ns_pid k task
  = to_u32 <$> stored_id s (ns_index (to_u32 (pid.level s))).
Proof.
  intros Ht Hs. rewrite get_task_ns_pid_unfold. simpl.
  unfold core_read_task, core_read_pid. rewrite Ht, Hs.
  set (i := ns_index _). pose proof (ns_index_range (to_u32 (pid.level s))) as Hi.
  fold i in Hi. unfold core_read_pid_numbers_nr, stored_id. rewrite Hs.
  replace (0 <=? i) with true by (symmetry; apply Z.leb_le; lia).
  replace (i <? 8) with true by (symmetry; apply Z.ltb_lt; lia).
  simpl. rewrite <- !option_fmap_compose.
  apply option_fmap_ext. intros u. simpl. apply to_u32_to_i32.
Qed.
End Resolver.

(** ** The handlers, case by case *)

Lemma reported_code_range raw : 0 ≤ reported_code raw < 256.
Proof.
  unfold reported_code. pose proof (land_0x7F_range raw).
  pose proof (land_0xFF_range (Z.shiftr raw 8)). case_decide; lia.
Qed.

Lemma handle_exit_miss k ctx w :
  monitored_pids w !! exit_pid k = None → handle_exit k ctx w = Some (0, w).
Proof.
  intros H. unfold handle_exit, mbind, M_bind, bpf_map_lookup_elem.
  fold (exit_pid k). by rewrite H.
Qed.

Lemma handle_exit_hit k ctx w :
  is_Some (monitored_pids w !! exit_pid k) →
  handle_exit k ctx w = Some (0, after_exit k w).
Proof.
  intros [v H]. unfold handle_exit, mbind, M_bind, bpf_map_lookup_elem.
  fold (exit_pid k) (real_parent_of k) (raw_status k). rewrite H.
  unfold after_exit, assembled_event.
  destruct (get_task_ns_pid_total k (bpf_get_current_task k)) as [nsp ->].
  destruct (get_task_ns_pid_total k (real_parent_of k)) as [nspp Hpp].
  rewrite Hpp. unfold lift at 1. cbn [default from_option id]. cbv beta iota.
  assert (Hnspp : real_parent_of k = NULL → nspp = 0).
  { intros Hn. rewrite Hn, get_task_ns_pid_no_task in Hpp by reflexivity.
    by inversion Hpp. }
  assert (Hcode : (if decide (Z.land (raw_status k) 127 ≠ 0)
                   then to_i32 (128 + Z.land (raw_status k) 127)
                   else Z.land (Z.shiftr (raw_status k) 8) 255)
                  = reported_code (raw_status k)).
  { unfold reported_code. case_decide; [|reflexivity].
    apply to_i32_id. pose proof (land_0x7F_range (raw_status k)). lia. }
  rewrite Hcode. clear Hcode.
  unfold bpf_perf_event_output, bpf_map_delete_elem, set_events, set_monitored_pids.
  case_decide as Hp.
  - unfold lift. destruct (perf_room k); cbn [monitored_pids events]; rewrite H; reflexivity.
  - rewrite Hnspp by (destruct (decide (real_parent_of k = NULL)); tauto).
    unfold mret, M_ret.
    destruct (perf_room k); cbn [monitored_pids events]; rewrite H; reflexivity.
Qed.

Lemma byte_eqb_eq (x y : byte) : Byte.eqb x y = true ↔ x = y.
Proof. split; [apply byte_dec_bl | apply byte_dec_lb]. Qed.

Lemma name_filter_spec (c : vec byte 16) :
  name_filter c = true ↔ scheduler_name c.
Proof.
  unfold name_filter, scheduler_name, has_prefix.
  inv_vec c. intros b0 b1 b2 b3 b4 b5 b6 b7 b8 b9 b10 b11 b12 b13 b14 b15.
  change
    ((Byte.eqb b0 "c" && Byte.eqb b1 "r" && Byte.eqb b2 "o" && Byte.eqb b3 "n")
     || (Byte.eqb b0 "C" && Byte.eqb b1 "R" && Byte.eqb b2 "O" && Byte.eqb b3 "N")
     || (Byte.eqb b0 "c" && Byte.eqb b1 "r" && Byte.eqb b2 "o" && Byte.eqb b3 "n"
         && Byte.eqb b4 "d") = true
     ↔ [b0; b1; b2; b3] = ["c"; "r"; "o"; "n"]
       ∨ [b0; b1; b2; b3] = ["C"; "R"; "O"; "N"]
       ∨ [b0; b1; b2; b3; b4] = ["c"; "r"; "o"; "n"; "d"])%byte.
  rewrite !orb_true_iff, !andb_true_iff, !byte_eqb_eq.
  split.
  - intros [[H|H]|H]; destruct_and?; subst; auto.
  - intros [H|[H|H]]; inversion H; subst; auto 10.
Qed.

Lemma handle_fork_unfold k ctx :
  handle_fork k ctx
  = if name_filter (bpf_get_current_comm k)
    then (bpf_map_update_elem (fork_child ctx) 1 BPF_ANY ≫= λ _, mret 0)
    else mret 0.
Proof. reflexivity. Qed.

Lemma bpf_map_update_elem_admitted key value w :
  admits (monitored_pids w) key →
  bpf_map_update_elem key value BPF_ANY w
  = Some (0, set_monitored_pids (<[key := value]> (monitored_pids w)) w).
Proof.
  intros Hroom. unfold bpf_map_update_elem.
  change (BPF_EXIST <? BPF_ANY) with false.
  change (BPF_ANY =? BPF_NOEXIST) with false.
  change (BPF_ANY =? BPF_EXIST) with false. cbv beta iota zeta.
  destruct (monitored_pids w !! key) as [v|] eqn:Hk; [done|].
  destruct Hroom as [[v Hv]|Hlt]; [congruence|].
  destruct (Z.leb_spec max_entries (Z.of_nat (size (monitored_pids w)))); [lia|done].
Qed.

Lemma bpf_map_update_elem_refused key value w :
  ¬ admits (monitored_pids w) key →
  bpf_map_update_elem key value BPF_ANY w = Some (- E2BIG, w).
Proof.
  intros Hfull. unfold bpf_map_update_elem.
  change (BPF_EXIST <? BPF_ANY) with false.
  change (BPF_ANY =? BPF_NOEXIST) with false.
  change (BPF_ANY =? BPF_EXIST) with false. cbv beta iota zeta.
  destruct (monitored_pids w !! key) as [v|] eqn:Hk.
  { exfalso. apply Hfull. left. rewrite Hk. by eexists. }
  destruct (Z.leb_spec max_entries (Z.of_nat (size (monitored_pids w)))); [done|].
  exfalso. apply Hfull. by right.
Qed.

Lemma admits_dec m key : admits m key ∨ ¬ admits m key.
Proof.
  unfold admits. destruct (m !! key) as [v|].
  - left. left. by eexists.
  - destruct (Z.lt_ge_cases (Z.of_nat (size m)) max_entries).
    + left. by right.
    + right. intros [[v Hv]|Hlt]; [done|lia].
Qed.

Lemma handle_fork_no_match k ctx w :
  ¬ scheduler_name (bpf_get_current_comm k) → handle_fork k ctx w = Some (0, w).
Proof.
  intros Hn. rewrite handle_fork_unfold.
  destruct (name_filter _) eqn:Hf; [|done].
  by apply name_filter_spec in Hf.
Qed.

Lemma handle_fork_match k ctx w :
  scheduler_name (bpf_get_current_comm k) →
  handle_fork k ctx w
  = (bpf_map_update_elem (fork_child ctx) 1 BPF_ANY ≫= λ _, mret 0) w.
Proof.
  intros Hn. rewrite handle_fork_unfold.
  apply name_filter_spec in Hn. by rewrite Hn.
Qed.

Lemma handle_fork_admitted k ctx w :
  scheduler_name (bpf_get_current_comm k) →
  admits (monitored_pids w) (fork_child ctx) →
  handle_fork k ctx w
  = Some (0, set_monitored_pids (<[fork_child ctx := 1]> (monitored_pids w)) w).
Proof.
  intros Hn Hroom. rewrite handle_fork_match by done.
  unfold mbind, M_bind. by rewrite bpf_map_update_elem_admitted.
Qed.

Lemma handle_fork_refused k ctx w :
  scheduler_name (bpf_get_current_comm k) →
  ¬ admits (monitored_pids w) (fork_child ctx) →
  handle_fork k ctx w = Some (0, w).
Proof.
  intros Hn Hfull. rewrite handle_fork_match by done.
  unfold mbind, M_bind. by rewrite bpf_map_update_elem_refused.
Qed.

(** ** One firing, then sequences of firings *)

Lemma handle_fork_returns k ctx w : ∃ w', handle_fork k ctx w = Some (0, w').
Proof.
  destruct (name_filter (bpf_get_current_comm k)) eqn:Hf.
  - apply name_filter_spec in Hf.
    destruct (admits_dec (monitored_pids w) (fork_child ctx)).
    + eexists. by apply handle_fork_admitted.
    + eexists. by apply handle_fork_refused.
  - eexists. apply handle_fork_no_match. intros Hn.
    apply name_filter_spec in Hn. congruence.
Qed.

Lemma handle_exit_returns k ctx w : ∃ w', handle_exit k ctx w = Some (0, w').
Proof.
  destruct (monitored_pids w !! exit_pid k) as [v|] eqn:Hk.
  - eexists. apply handle_exit_hit. rewrite Hk. by eexists.
  - eexists. by apply handle_exit_miss.
Qed.

Lemma fire_returns e w : ∃ w', fire e w = Some (0, w').
Proof. destruct e; [apply handle_fork_returns | apply handle_exit_returns]. Qed.

Lemma run_total evs : ∀ w, is_Some (run evs w).
Proof.
  induction evs as [|e evs IH]; intros w; cbn [run]; [by eexists|].
  destruct (fire_returns e w) as [w' ->]. apply IH.
Qed.

(** What one firing can add to the tracking map, whatever its capacity. *)
Lemma fire_tracked_inv e w rc w' p :
  fire e w = Some (rc, w') →
  is_Some (monitored_pids w' !! p) →
  enrolls p e ∨ (is_Some (monitored_pids w !! p) ∧ ¬ exit_of p e).
Proof.
  destruct e as [k ctx|k ctx]; cbn [fire enrolls exit_of]; intros Hfire Hp.
  - destruct (name_filter (bpf_get_current_comm k)) eqn:Hf.
    + apply name_filter_spec in Hf.
      destruct (admits_dec (monitored_pids w) (fork_child ctx)) as [Ha|Ha].
      * rewrite handle_fork_admitted in Hfire by done.
        injection Hfire as <- <-.
        unfold set_monitored_pids, after_exit in Hp; cbn [monitored_pids] in Hp.
        destruct (decide (fork_child ctx = p)) as [->|Hne]; [by left|].
        rewrite lookup_insert_ne in Hp by done. right. tauto.
      * rewrite handle_fork_refused in Hfire by done.
        injection Hfire as <- <-. right. tauto.
    + rewrite handle_fork_no_match in Hfire.
      * injection Hfire as <- <-. right. tauto.
      * intros Hn. apply name_filter_spec in Hn. congruence.
  - right. destruct (monitored_pids w !! exit_pid k) as [v|] eqn:Hk.
    + rewrite handle_exit_hit in Hfire by (rewrite Hk; by eexists).
      injection Hfire as <- <-.
        unfold set_monitored_pids, after_exit in Hp; cbn [monitored_pids] in Hp.
      destruct (decide (exit_pid k = p)) as [Heq|Hne].
      * subst p. rewrite lookup_delete_eq in Hp. by destruct Hp.
      * rewrite lookup_delete_ne in Hp by done. tauto.
    + rewrite handle_exit_miss in Hfire by done.
      injection Hfire as <- <-. split; [done|].
      intros <-. rewrite Hk in Hp. by destruct Hp.
Qed.

(** When the firing loses no insert, that is exactly what it leaves. *)
Lemma fire_tracked e w rc w' p :
  insert_lost e w = false →
  fire e w = Some (rc, w') →
  is_Some (monitored_pids w' !! p)
  ↔ enrolls p e ∨ (is_Some (monitored_pids w !! p) ∧ ¬ exit_of p e).
Proof.
  intros Hlost Hfire. split; [by eapply fire_tracked_inv|].
  destruct e as [k ctx|k ctx]; cbn [fire enrolls exit_of insert_lost] in *.
  - destruct (name_filter (bpf_get_current_comm k)) eqn:Hf.
    + pose proof Hf as Hn. apply name_filter_spec in Hn.
      destruct (admits_dec (monitored_pids w) (fork_child ctx)) as [Ha|Ha].
      * rewrite handle_fork_admitted in Hfire by done.
        injection Hfire as <- <-.
        unfold set_monitored_pids, after_exit; cbn [monitored_pids].
        intros [[_ <-]|[Hp _]]; [rewrite lookup_insert_eq; by eexists|].
        destruct (decide (fork_child ctx = p)) as [->|Hne].
        -- rewrite lookup_insert_eq. by eexists.
        -- by rewrite lookup_insert_ne.
      * rewrite bpf_map_update_elem_refused in Hlost by done. done.
    + rewrite handle_fork_no_match in Hfire.
      * injection Hfire as <- <-. intros [[Hn _]|[Hp _]]; [|done].
        apply name_filter_spec in Hn. congruence.
      * intros Hn. apply name_filter_spec in Hn. congruence.
  - intros [[]|[Hp Hne]].
    destruct (monitored_pids w !! exit_pid k) as [v|] eqn:Hk.
    + rewrite handle_exit_hit in Hfire by (rewrite Hk; by eexists).
      injection Hfire as <- <-.
        unfold set_monitored_pids, after_exit; cbn [monitored_pids]. by rewrite lookup_delete_ne.
    + rewrite handle_exit_miss in Hfire by done. by injection Hfire as <- <-.
Qed.

Lemma pending_nil p : ¬ pending [] p.
Proof. intros (pre & e & post & H & _). by destruct pre. Qed.

Lemma pending_cons e evs p :
  pending (e :: evs) p
  ↔ pending evs p ∨ (enrolls p e ∧ ∀ e', e' ∈ evs → ¬ exit_of p e').
Proof.
  split.
  - intros (pre & e0 & post & Heq & Hen & Hpost).
    destruct pre as [|e1 pre]; simpl in Heq; injection Heq as -> ->.
    + by right.
    + left. by exists pre, e0, post.
  - intros [(pre & e0 & post & -> & Hen & Hpost)|[Hen Hpost]].
    + by exists (e :: pre), e0, post.
    + by exists [], e, evs.
Qed.

(** No enrolling fork in [evs]: a pid that is absent stays absent. *)
Lemma run_stays_absent evs p : ∀ w w',
  (∀ e, e ∈ evs → ¬ enrolls p e) →
  monitored_pids w !! p = None →
  run evs w = Some w' →
  monitored_pids w' !! p = None.
Proof.
  induction evs as [|e evs IH]; intros w w' Hno Hp; cbn [run].
  - by intros [= <-].
  - destruct (fire e w) as [[rc w1]|] eqn:Hfire; [|done].
    apply IH.
    + intros e' He'. apply Hno. by right.
    + apply eq_None_not_Some. intros Hs.
      destruct (fire_tracked_inv _ _ _ _ _ Hfire Hs) as [Hen|[Hw _]].
      * by apply (Hno e); [left|].
      * rewrite Hp in Hw. by destruct Hw.
Qed.

(** The tracking map after a run that loses no insert. *)
Lemma run_tracked evs p : ∀ w w',
  no_insert_lost evs w = true →
  run evs w = Some w' →
  is_Some (monitored_pids w' !! p)
  ↔ pending evs p
    ∨ (is_Some (monitored_pids w !! p) ∧ ∀ e, e ∈ evs → ¬ exit_of p e).
Proof.
  induction evs as [|e evs IH]; intros w w'; cbn [run no_insert_lost].
  - intros _ [= <-]. split.
    + intros Hp. right. split; [done|]. intros e He. by apply elem_of_nil in He.
    + intros [Hp|[Hp _]]; [by apply pending_nil in Hp | done].
  - intros [Hlost Hrest]%andb_true_iff.
    apply negb_true_iff in Hlost.
    destruct (fire e w) as [[rc w1]|] eqn:Hfire; [|done].
    intros Hrun. rewrite (IH w1 w' Hrest Hrun).
    rewrite (fire_tracked e w rc w1 p Hlost Hfire), pending_cons.
    split.
    + intros [Hp|[[Hen|[Hw Hne]] Hno]].
      * by left; left.
      * left. by right.
      * right. split; [done|]. intros e' [->|He']%elem_of_cons; auto.
    + intros [[Hp|[Hen Hno]]|[Hw Hno]].
      * by left.
      * right. split; [by left | done].
      * right. split.
        -- right. split; [done|]. apply Hno. by left.
        -- intros e' He'. apply Hno. by right.
Qed.

(** * Main results *)

(** C1. For every raw wait status read from the exiting task as a 32-bit
    integer, the exit code in the emitted event is [128 + (raw & 0x7F)] when
    the low 7 bits are nonzero and [(raw >> 8) & 0xFF] otherwise; so raw
    0x0000 is reported as 0, 0x2A00 as 42 and 0x0009 as 137. *)
Theorem exit_code_decoding k ctx w raw :
  is_Some (monitored_pids w !! exit_pid k) →
  perf_room k = true →
  raw = to_i32 (core_read_task k (bpf_get_current_task k) task_struct.exit_code) →
  ∃ e w',
    handle_exit k ctx w = Some (0, w')
    ∧ events w' = events w ++ [e]
    ∧ event.exit_code e
      = (if decide (Z.land raw 0x7F ≠ 0) then 128 + Z.land raw 0x7F
         else Z.land (Z.shiftr raw 8) 0xFF)
    ∧ (raw = 0x0000 → event.exit_code e = 0)
    ∧ (raw = 0x2A00 → event.exit_code e = 42)
    ∧ (raw = 0x0009 → event.exit_code e = 137).
Proof.
  intros Hhit Hroom ->. exists (assembled_event k), (after_exit k w).
  split; [by apply handle_exit_hit|].
  unfold after_exit. cbn [events]. rewrite Hroom. split; [done|].
  cbn [assembled_event event.exit_code]. fold (raw_status k).
  split; [done|]. repeat split; intros ->; reflexivity.
Qed.

Lemma exit_code_decoding_witness :
  is_Some (monitored_pids (tracking [4242]) !! exit_pid (sample_exit 0 0x2A00 true))
  ∧ ∃ e w',
      handle_exit (sample_exit 0 0x2A00 true) exit_ctx (tracking [4242]) = Some (0, w')
      ∧ events w' = [e]
      ∧ event.exit_code e = 42.
Proof.
  assert (Hhit : is_Some (monitored_pids (tracking [4242])
                            !! exit_pid (sample_exit 0 0x2A00 true)))
    by (exists 1; vm_compute; reflexivity).
  split; [exact Hhit|].
  destruct (exit_code_decoding (sample_exit 0 0x2A00 true) exit_ctx
              (tracking [4242]) 0x2A00 Hhit eq_refl eq_refl)
    as (e & w' & Hrun & Hev & _ & _ & H42 & _).
  exists e, w'. split; [exact Hrun|]. split; [exact Hev|]. by apply H42.
Defined.

(** C2 (amended). The fork handler performs its upsert exactly when the
    calling process's 16-byte name starts with "cron", "CRON" or "crond": on
    a match its whole effect is one [bpf_map_update_elem] of (child pid,
    marker) with [BPF_ANY], which overwrites a present key, adds an absent key
    while the map holds fewer than 10240 entries, and is refused, leaving the
    maps unchanged, for an absent key at capacity; on a non-match the maps are
    unchanged.  So the child's pid is in the map after the handler if and only
    if it was there before, or the name matched and the map had room. *)
Theorem fork_filter_upsert k ctx w :
  let child := to_u32 (trace_event_raw_sched_process_fork.child_pid ctx) in
  (name_filter (bpf_get_current_comm k) = true
   ↔ has_prefix "cron" (bpf_get_current_comm k)
     ∨ has_prefix "CRON" (bpf_get_current_comm k)
     ∨ has_prefix "crond" (bpf_get_current_comm k))
  ∧ (scheduler_name (bpf_get_current_comm k) →
     (∃ rc w',
        bpf_map_update_elem child 1 BPF_ANY w = Some (rc, w')
        ∧ handle_fork k ctx w = Some (0, w'))
     ∧ (admits (monitored_pids w) child →
        handle_fork k ctx w
        = Some (0, {| monitored_pids := <[child := 1]> (monitored_pids w);
                      events := events w |})))
  ∧ (¬ scheduler_name (bpf_get_current_comm k) →
     handle_fork k ctx w = Some (0, w))
  ∧ (∀ w', handle_fork k ctx w = Some (0, w') →
     monitored_pids w' ≠ monitored_pids w →
     scheduler_name (bpf_get_current_comm k)
     ∧ monitored_pids w' = <[child := 1]> (monitored_pids w))
  ∧ (scheduler_name (bpf_get_current_comm k) →
     monitored_pids w !! child = None →
     max_entries ≤ Z.of_nat (size (monitored_pids w)) →
     handle_fork k ctx w = Some (0, w))
  ∧ (∃ w',
       handle_fork k ctx w = Some (0, w')
       ∧ (is_Some (monitored_pids w' !! child)
          ↔ is_Some (monitored_pids w !! child)
            ∨ (scheduler_name (bpf_get_current_comm k)
               ∧ Z.of_nat (size (monitored_pids w)) < max_entries))).
Proof.
  intros child. fold (fork_child ctx) in child. subst child.
  split; [apply name_filter_spec|]. split; [|split; [|split; [|split]]].
  - intros Hn. split.
    + destruct (admits_dec (monitored_pids w) (fork_child ctx)) as [Ha|Ha].
      * eexists _, _. split; [by apply bpf_map_update_elem_admitted|].
        by apply handle_fork_admitted.
      * eexists _, _. split; [by apply bpf_map_update_elem_refused|].
        by apply handle_fork_refused.
    + intros Ha. by apply handle_fork_admitted.
  - apply handle_fork_no_match.
  - intros w' Hrun Hneq.
    destruct (name_filter (bpf_get_current_comm k)) eqn:Hf.
    + apply name_filter_spec in Hf. split; [done|].
      destruct (admits_dec (monitored_pids w) (fork_child ctx)) as [Ha|Ha].
      * rewrite handle_fork_admitted in Hrun by done. by injection Hrun as <-.
      * rewrite handle_fork_refused in Hrun by done. by injection Hrun as <-.
    + rewrite handle_fork_no_match in Hrun.
      * by injection Hrun as <-.
      * intros Hn. apply name_filter_spec in Hn. congruence.
  - intros Hn Habsent Hfull. apply handle_fork_refused; [done|].
    intros [[v Hv]|Hlt]; [congruence|lia].
  - destruct (name_filter (bpf_get_current_comm k)) eqn:Hf.
    + apply name_filter_spec in Hf.
      destruct (admits_dec (monitored_pids w) (fork_child ctx)) as [Ha|Ha].
      * eexists. split; [by apply handle_fork_admitted|].
        unfold set_monitored_pids. cbn [monitored_pids].
        rewrite lookup_insert_eq. split; [|by eexists].
        intros _. destruct Ha as [Hp|Hlt]; [by left | by right].
      * exists w. split; [by apply handle_fork_refused|].
        split; [by left|]. intros [Hp|[_ Hlt]]; [done|].
        exfalso. apply Ha. by right.
    + exists w. split.
      * apply handle_fork_no_match. intros Hn.
        apply name_filter_spec in Hn. congruence.
      * split; [by left|]. intros [Hp|[Hn _]]; [done|].
        apply name_filter_spec in Hn. congruence.
Qed.

Lemma fork_filter_upsert_witness :
  scheduler_name (bpf_get_current_comm (sample_fork "crond" 77).1)
  ∧ admits ∅ 77
  ∧ handle_fork (sample_fork "crond" 77).1 (sample_fork "crond" 77).2 no_maps
    = Some (0, {| monitored_pids := {[ 77 := 1 ]}; events := [] |})
  ∧ ¬ scheduler_name (bpf_get_current_comm (sample_fork "anacron" 78).1)
  ∧ handle_fork (sample_fork "anacron" 78).1 (sample_fork "anacron" 78).2 no_maps
    = Some (0, no_maps).
Proof.
  assert (Hyes : scheduler_name (bpf_get_current_comm (sample_fork "crond" 77).1))
    by (left; reflexivity).
  assert (Hroom : admits ∅ 77) by (right; vm_compute; reflexivity).
  assert (Hno : ¬ scheduler_name (bpf_get_current_comm (sample_fork "anacron" 78).1)).
  { intros Hn. apply name_filter_spec in Hn. vm_compute in Hn. discriminate. }
  split; [exact Hyes|]. split; [exact Hroom|]. split; [|split; [exact Hno|]].
  - exact (proj2 (proj1 (proj2 (fork_filter_upsert (sample_fork "crond" 77).1
                                  (sample_fork "crond" 77).2 no_maps)) Hyes) Hroom).
  - exact (proj1 (proj2 (proj2 (fork_filter_upsert (sample_fork "anacron" 78).1
                                  (sample_fork "anacron" 78).2 no_maps))) Hno).
Defined.

(** C2 as stated fails when the map is full: the caller is named "cron",
    the tracking map holds the 10240 keys 1..10240, and after the handler has
    returned 0 the child's pid 30000 is still not in the map. *)
Lemma fork_at_capacity_inserts_nothing :
  scheduler_name (bpf_get_current_comm (sample_fork "cron" 30000).1)
  ∧ Z.of_nat (size (monitored_pids (tracking (seqZ 1 10240)))) = max_entries
  ∧ ∃ w',
      handle_fork (sample_fork "cron" 30000).1 (sample_fork "cron" 30000).2
        (tracking (seqZ 1 10240)) = Some (0, w')
      ∧ monitored_pids w'
          !! to_u32 (trace_event_raw_sched_process_fork.child_pid
                       (sample_fork "cron" 30000).2) = None.
Proof.
  assert (Hn : scheduler_name (bpf_get_current_comm (sample_fork "cron" 30000).1))
    by (left; reflexivity).
  assert (Hsize : Z.of_nat (size (monitored_pids (tracking (seqZ 1 10240)))) = max_entries)
    by (vm_compute; reflexivity).
  assert (Habsent : monitored_pids (tracking (seqZ 1 10240)) !! 30000 = None)
    by (vm_compute; reflexivity).
  split; [exact Hn|]. split; [exact Hsize|].
  exists (tracking (seqZ 1 10240)). split; [|exact Habsent].
  apply handle_fork_refused; [exact Hn|].
  intros [[v Hv]|Hlt].
  - change (fork_child (sample_fork "cron" 30000).2) with 30000 in Hv. congruence.
  - rewrite Hsize in Hlt. lia.
Qed.

(** C3. For every task handle the resolver returns the guarded read of
    the per-level id at index [level] when the depth counter satisfies
    1 ≤ level ≤ 7 and at index 0 otherwise.  For a task whose identity
    structure is [s] that is the id stored in [s] at that index: depth 0 gives
    the outermost id, depth 3 the id at index 3, depth 9 falls back to
    index 0.  The stored [int] is returned as [u32], which leaves an id
    unchanged. *)
Theorem resolver_returns_id_at_level k task :
  (let pid_struct := core_read_task k task task_struct.thread_pid in
   let level := to_u32 (core_read_pid k pid_struct pid.level) in
   get_task_ns_pid k task
   = to_u32 <$> core_read_pid_numbers_nr k pid_struct
                  (if decide (1 ≤ level ≤ 7) then level else 0))
  ∧ ∀ t s,
      deref_task k task = Some t →
      deref_pid k (task_struct.thread_pid t) = Some s →
      let level := to_u32 (pid.level s) in
      (∃ id,
         stored_id s (if decide (1 ≤ level ≤ 7) then level else 0) = Some id
         ∧ get_task_ns_pid k task = Some (to_u32 id)
         ∧ (0 ≤ id < 2 ^ 32 → get_task_ns_pid k task = Some id))
      ∧ (level = 0 → get_task_ns_pid k task = to_u32 <$> stored_id s 0)
      ∧ (level = 3 → get_task_ns_pid k task = to_u32 <$> stored_id s 3)
      ∧ (level = 9 → get_task_ns_pid k task = to_u32 <$> stored_id s 0).
Proof.
  split.
  { intros pid_struct level. rewrite <- ns_index_spec.
    apply get_task_ns_pid_unfold. }
  intros t s Ht Hs level.
  pose proof (get_task_ns_pid_stored k task t s Ht Hs) as Hget.
  fold level in Hget. rewrite ns_index_spec in Hget.
  split; [|repeat split; intros Hl; rewrite Hget, Hl; reflexivity].
  set (i := if decide (1 ≤ level ≤ 7) then level else 0) in *.
  assert (Hi : 0 ≤ i < 8) by (subst i; case_decide; lia).
  destruct (numbers_lookup s i Hi) as [u Hu].
  exists (upid.nr u). unfold stored_id in *. rewrite Hu in *.
  split; [done|]. split; [done|].
  intros Hid. rewrite Hget. simpl. by rewrite to_u32_id.
Qed.

Lemma resolver_returns_id_at_level_witness :
  deref_task (sample_exit 3 0 true) 0x1000 = Some (sample_task 4242 0x2000 0x1100 0)
  ∧ deref_pid (sample_exit 3 0 true) 0x1100 = Some (sample_pid 3 4242)
  ∧ get_task_ns_pid (sample_exit 3 0 true) 0x1000
    = to_u32 <$> stored_id (sample_pid 3 4242) 3.
Proof.
  split; [reflexivity|]. split; [reflexivity|].
  exact (proj1 (proj2 (proj2
           (proj2 (resolver_returns_id_at_level (sample_exit 3 0 true) 0x1000)
              (sample_task 4242 0x2000 0x1100 0) (sample_pid 3 4242)
              eq_refl eq_refl))) eq_refl).
Defined.

(** C4. From an empty tracking map, after any sequence of fork and exit
    firings in which no insert is lost to capacity, a pid has an entry if and
    only if some fork in the sequence had it as child under a matching
    caller name and no exit for that pid was processed after that fork. *)
Theorem tracking_invariant evs w0 :
  monitored_pids w0 = ∅ →
  no_insert_lost evs w0 = true →
  ∃ w,
    run evs w0 = Some w
    ∧ ∀ p,
        is_Some (monitored_pids w !! p)
        ↔ ∃ pre k ctx post,
            evs = pre ++ sched_process_fork k ctx :: post
            ∧ to_u32 (trace_event_raw_sched_process_fork.child_pid ctx) = p
            ∧ scheduler_name (bpf_get_current_comm k)
            ∧ ∀ k' ctx', sched_process_exit k' ctx' ∈ post → exit_pid k' ≠ p.
Proof.
  intros Hempty Hcap.
  destruct (run_total evs w0) as [w Hrun]. exists w. split; [done|].
  intros p. rewrite (run_tracked evs p w0 w Hcap Hrun), Hempty, lookup_empty.
  split.
  - intros [(pre & e & post & -> & Hen & Hpost)|[[v Hv] _]]; [|done].
    destruct e as [k ctx|k ctx]; [|done]. destruct Hen as [Hn Hc].
    exists pre, k, ctx, post. repeat split; try done.
    intros k' ctx' Hin. apply (Hpost _ Hin).
  - intros (pre & k & ctx & post & -> & Hc & Hn & Hpost). left.
    exists pre, (sched_process_fork k ctx), post. repeat split; try done.
    intros [k' ctx'|k' ctx'] Hin; cbn [exit_of]; [tauto|by apply (Hpost k' ctx')].
Qed.

Lemma tracking_invariant_witness :
  monitored_pids no_maps = ∅
  ∧ no_insert_lost sample_history no_maps = true
  ∧ ∃ w, run sample_history no_maps = Some w
         ∧ is_Some (monitored_pids w !! 78)
         ∧ ¬ is_Some (monitored_pids w !! 77).
Proof.
  split; [reflexivity|]. split; [vm_compute; reflexivity|].
  destruct (tracking_invariant sample_history no_maps eq_refl eq_refl)
    as (w & Hrun & Hiff).
  exists w. split; [exact Hrun|]. split.
  - apply Hiff.
    exists [sched_process_fork (sample_fork "cron" 77).1 (sample_fork "cron" 77).2],
      (sample_fork "CRON" 78).1, (sample_fork "CRON" 78).2,
      [sched_process_fork (sample_fork "bash" 79).1 (sample_fork "bash" 79).2;
       sched_process_exit (exit_of_pid 77) exit_ctx].
    split; [reflexivity|]. split; [reflexivity|].
    split; [right; left; reflexivity|].
    intros k' ctx' Hin.
    apply elem_of_cons in Hin as [Hin|Hin]; [discriminate|].
    apply elem_of_cons in Hin as [Hin|Hin]; [|by apply elem_of_nil in Hin].
    injection Hin as -> ->. vm_compute. discriminate.
  - vm_compute in Hrun. injection Hrun as <-. intros [v Hv].
    vm_compute in Hv. discriminate.
Defined.

(** C5. An exit whose pid is tracked emits exactly one event when the
    channel has room, and deletes the pid's entry whether or not the write
    succeeded; a later exit under the same pid, with no matching fork of that
    pid in between, emits nothing. *)
Theorem tracked_exit_reports_once k ctx w :
  is_Some (monitored_pids w !! exit_pid k) →
  ∃ w',
    handle_exit k ctx w = Some (0, w')
    ∧ (perf_room k = true → ∃ e, events w' = events w ++ [e])
    ∧ (perf_room k = false → events w' = events w)
    ∧ monitored_pids w' = delete (exit_pid k) (monitored_pids w)
    ∧ monitored_pids w' !! exit_pid k = None
    ∧ ∀ evs w1 k2 ctx2,
        (∀ kf ctxf,
           sched_process_fork kf ctxf ∈ evs →
           scheduler_name (bpf_get_current_comm kf) →
           to_u32 (trace_event_raw_sched_process_fork.child_pid ctxf) ≠ exit_pid k) →
        run evs w' = Some w1 →
        exit_pid k2 = exit_pid k →
        handle_exit k2 ctx2 w1 = Some (0, w1).
Proof.
  intros Hhit. exists (after_exit k w).
  split; [by apply handle_exit_hit|].
  unfold after_exit at 1 2 3 4. cbn [events monitored_pids].
  split; [intros ->; by eexists|]. split; [by intros ->|].
  split; [done|]. split; [apply lookup_delete_eq|].
  intros evs w1 k2 ctx2 Hno Hrun Hpid.
  apply handle_exit_miss. rewrite Hpid.
  apply (run_stays_absent evs (exit_pid k) (after_exit k w) w1); [|apply lookup_delete_eq|done].
  intros [kf ctxf|kf ctxf] Hin; cbn [enrolls]; [|tauto].
  intros [Hn Hc]. by apply (Hno kf ctxf).
Qed.

Lemma tracked_exit_reports_once_witness :
  is_Some (monitored_pids (tracking [4242]) !! exit_pid (sample_exit 0 0 false))
  ∧ ∃ w',
      handle_exit (sample_exit 0 0 false) exit_ctx (tracking [4242]) = Some (0, w')
      ∧ events w' = []
      ∧ monitored_pids w' !! 4242 = None
      ∧ handle_exit (sample_exit 0 0 true) exit_ctx w' = Some (0, w').
Proof.
  assert (Hhit : is_Some (monitored_pids (tracking [4242])
                            !! exit_pid (sample_exit 0 0 false)))
    by (exists 1; vm_compute; reflexivity).
  split; [exact Hhit|].
  destruct (tracked_exit_reports_once (sample_exit 0 0 false) exit_ctx
              (tracking [4242]) Hhit)
    as (w' & Hrun & _ & Hdrop & _ & Hgone & Hagain).
  exists w'. split; [exact Hrun|]. split; [exact (Hdrop eq_refl)|].
  split; [exact Hgone|].
  apply (Hagain [] w' (sample_exit 0 0 true) exit_ctx); [|reflexivity|reflexivity].
  intros kf ctxf Hin. by apply elem_of_nil in Hin.
Defined.

(** C6. The emitted record has the members pid, parent_pid, ns_pid,
    ns_parent_pid (u32), exit_code (i32) and comm (u8[16]) in this order, at
    offsets 0, 4, 8, 12, 16 and 20 of a 36-byte record.  pid is the exiting
    process's global id, parent_pid the real parent's id read in the kernel
    state of the exit, the namespace fields are the resolver applied to the
    task and to its real parent, and comm is the name current at the exit,
    whatever the maps (and so whatever any fork) held before. *)
Theorem exit_event_fields k ctx w :
  is_Some (monitored_pids w !! exit_pid k) →
  perf_room k = true →
  let task := bpf_get_current_task k in
  let parent := core_read_task k task task_struct.real_parent in
  ∃ e w',
    handle_exit k ctx w = Some (0, w')
    ∧ events w' = events w ++ [e]
    ∧ event.pid e = to_u32 (Z.shiftr (bpf_get_current_pid_tgid k) 32)
    ∧ event.parent_pid e = to_u32 (core_read_task k parent task_struct.pid)
    ∧ get_task_ns_pid k task = Some (event.ns_pid e)
    ∧ get_task_ns_pid k parent = Some (event.ns_parent_pid e)
    ∧ event.comm e = bpf_get_current_comm k
    ∧ (0 ≤ event.pid e < 2 ^ 32 ∧ 0 ≤ event.parent_pid e < 2 ^ 32
       ∧ 0 ≤ event.ns_pid e < 2 ^ 32 ∧ 0 ≤ event.ns_parent_pid e < 2 ^ 32
       ∧ - 2 ^ 31 ≤ event.exit_code e < 2 ^ 31
       ∧ length (vec_to_list (event.comm e)) = 16%nat)
    ∧ event_members.*1
      = ["pid"; "parent_pid"; "ns_pid"; "ns_parent_pid"; "exit_code"; "comm"]%string
    ∧ event_members.*2 = [U32; U32; U32; U32; I32; CArray U8 16]
    ∧ member_offsets 0 event_members.*2 = [0; 4; 8; 12; 16; 20]
    ∧ struct_size event_members.*2 = 36.
Proof.
  intros Hhit Hroom task parent. exists (assembled_event k), (after_exit k w).
  split; [by apply handle_exit_hit|].
  unfold after_exit. cbn [events]. rewrite Hroom. split; [done|].
  cbn [assembled_event event.pid event.parent_pid event.ns_pid
       event.ns_parent_pid event.exit_code event.comm].
  fold task. fold parent. change (real_parent_of k) with parent.
  destruct (get_task_ns_pid_total k task) as [nsp Hnsp].
  destruct (get_task_ns_pid_total k parent) as [nspp Hnspp].
  rewrite Hnsp, Hnspp. cbn [default from_option id].
  repeat split; try done; try apply to_u32_range.
  - by apply (get_task_ns_pid_range k task).
  - by apply (get_task_ns_pid_range k task).
  - by apply (get_task_ns_pid_range k parent).
  - by apply (get_task_ns_pid_range k parent).
  - pose proof (reported_code_range (raw_status k)). lia.
  - pose proof (reported_code_range (raw_status k)). lia.
  - apply length_vec_to_list.
Qed.

Lemma exit_event_fields_witness :
  is_Some (monitored_pids (tracking [4242]) !! exit_pid (sample_exit 3 0x2A00 true))
  ∧ ∃ e w',
      handle_exit (sample_exit 3 0x2A00 true) exit_ctx (tracking [4242]) = Some (0, w')
      ∧ events w' = [e]
      ∧ event.pid e = 4242
      ∧ event.parent_pid e = 900
      ∧ Some 4245 = Some (event.ns_pid e)
      ∧ Some 900 = Some (event.ns_parent_pid e)
      ∧ event.comm e = comm_of_string "backup.sh".
Proof.
  assert (Hhit : is_Some (monitored_pids (tracking [4242])
                            !! exit_pid (sample_exit 3 0x2A00 true)))
    by (exists 1; vm_compute; reflexivity).
  split; [exact Hhit|].
  destruct (exit_event_fields (sample_exit 3 0x2A00 true) exit_ctx
              (tracking [4242]) Hhit eq_refl)
    as (e & w' & Hrun & Hev & Hpid & Hpp & Hns & Hnsp & Hcomm & _).
  exists e, w'. repeat split; assumption.
Defined.

(** C7. Both handlers return 0 on every input, never aborting.  With the
    tracking map at its capacity of 10240 entries, a matching fork of a pid
    that is not in the map adds nothing and leaves the maps as they were. *)
Theorem handlers_return_zero :
  (∀ k ctx w, ∃ w', handle_fork k ctx w = Some (0, w'))
  ∧ (∀ k ctx w, ∃ w', handle_exit k ctx w = Some (0, w'))
  ∧ max_entries = 10240
  ∧ ∀ k ctx w,
      scheduler_name (bpf_get_current_comm k) →
      max_entries ≤ Z.of_nat (size (monitored_pids w)) →
      monitored_pids w !! to_u32 (trace_event_raw_sched_process_fork.child_pid ctx) = None →
      bpf_map_update_elem
        (to_u32 (trace_event_raw_sched_process_fork.child_pid ctx)) 1 BPF_ANY w
      = Some (- E2BIG, w)
      ∧ handle_fork k ctx w = Some (0, w).
Proof.
  split; [apply handle_fork_returns|]. split; [apply handle_exit_returns|].
  split; [reflexivity|]. intros k ctx w Hn Hfull Habsent.
  fold (fork_child ctx) in *.
  assert (Ha : ¬ admits (monitored_pids w) (fork_child ctx)).
  { intros [[v Hv]|Hlt]; [congruence|lia]. }
  split; [by apply bpf_map_update_elem_refused | by apply handle_fork_refused].
Qed.

Lemma handlers_return_zero_witness :
  scheduler_name (bpf_get_current_comm (sample_fork "cron" 20000).1)
  ∧ max_entries ≤ Z.of_nat (size (monitored_pids (tracking (seqZ 1 10240))))
  ∧ monitored_pids (tracking (seqZ 1 10240)) !! 20000 = None
  ∧ handle_fork (sample_fork "cron" 20000).1 (sample_fork "cron" 20000).2
      (tracking (seqZ 1 10240))
    = Some (0, tracking (seqZ 1 10240)).
Proof.
  assert (Hn : scheduler_name (bpf_get_current_comm (sample_fork "cron" 20000).1))
    by (left; reflexivity).
  assert (Hfull : max_entries ≤ Z.of_nat (size (monitored_pids (tracking (seqZ 1 10240)))))
    by (apply Z.leb_le; vm_compute; reflexivity).
  assert (Habsent : monitored_pids (tracking (seqZ 1 10240)) !! 20000 = None)
    by (vm_compute; reflexivity).
  split; [exact Hn|]. split; [exact Hfull|]. split; [exact Habsent|].
  exact (proj2 (proj2 (proj2 (proj2 handlers_return_zero))
                  (sample_fork "cron" 20000).1 (sample_fork "cron" 20000).2
                  (tracking (seqZ 1 10240)) Hn Hfull Habsent)).
Defined.

(** C8. An exit whose pid has no entry in the tracking map has no effect:
    nothing is emitted and the tracking map is unchanged. *)
Theorem untracked_exit_no_effect k ctx w :
  monitored_pids w !! exit_pid k = None →
  handle_exit k ctx w = Some (0, w)
  ∧ ∀ w', handle_exit k ctx w = Some (0, w') →
          events w' = events w ∧ monitored_pids w' = monitored_pids w.
Proof.
  intros Hmiss. rewrite handle_exit_miss by done.
  split; [done|]. by intros w' [= <-].
Qed.

Lemma untracked_exit_no_effect_witness :
  monitored_pids (tracking [77; 78]) !! exit_pid (sample_exit 0 0 true) = None
  ∧ handle_exit (sample_exit 0 0 true) exit_ctx (tracking [77; 78])
    = Some (0, tracking [77; 78]).
Proof.
  split; [reflexivity|].
  exact (proj1 (untracked_exit_no_effect (sample_exit 0 0 true) exit_ctx
                  (tracking [77; 78]) eq_refl)).
Defined.

(** C9. Every array access of the resolver is in bounds: the index into the
    8-entry array is [level] only under the guard 0 < level < 8 and 0 on the
    fallback path, so for every value of the depth counter the read succeeds,
    while a read at any index outside 0..7 would not. *)
Theorem resolver_reads_in_bounds k task :
  let pid_struct := core_read_task k task task_struct.thread_pid in
  let level := to_u32 (core_read_pid k pid_struct pid.level) in
  let i := if (0 <? level) && (level <? 8) then level else 0 in
  0 ≤ i < 8
  ∧ is_Some (core_read_pid_numbers_nr k pid_struct i)
  ∧ get_task_ns_pid k task = to_u32 <$> core_read_pid_numbers_nr k pid_struct i
  ∧ is_Some (get_task_ns_pid k task)
  ∧ (∀ depth : Z,
       let j := if (0 <? depth) && (depth <? 8) then depth else 0 in
       0 ≤ j < 8 ∧ ∀ p, is_Some (core_read_pid_numbers_nr k p j))
  ∧ (∀ p j, core_read_pid_numbers_nr k p j = None ↔ ¬ (0 ≤ j < 8)).
Proof.
  intros pid_struct level i. fold (ns_index level) in i. subst i.
  pose proof (ns_index_range level) as Hi.
  split; [done|]. split; [by apply core_read_pid_numbers_nr_in_bounds|].
  split; [apply get_task_ns_pid_unfold|]. split; [apply get_task_ns_pid_total|].
  split.
  - intros depth j. fold (ns_index depth) in j. subst j.
    pose proof (ns_index_range depth). split; [done|].
    intros p. by apply core_read_pid_numbers_nr_in_bounds.
  - intros p j. split; [|apply core_read_pid_numbers_nr_out_of_bounds].
    intros Hnone Hj.
    destruct (core_read_pid_numbers_nr_in_bounds k p j Hj) as [v Hv]. congruence.
Qed.

(** C10. When the exiting task's real-parent handle is null, the emitted
    event reports 0 both for the namespace-relative parent pid and for the
    global parent_pid: the guarded read through the null handle yields 0. *)
Theorem null_parent_reports_zero k ctx w :
  is_Some (monitored_pids w !! exit_pid k) →
  perf_room k = true →
  core_read_task k (bpf_get_current_task k) task_struct.real_parent = NULL →
  core_read_task k NULL task_struct.pid = 0
  ∧ ∃ e w',
      handle_exit k ctx w = Some (0, w')
      ∧ events w' = events w ++ [e]
      ∧ event.parent_pid e = 0
      ∧ event.ns_parent_pid e = 0.
Proof.
  intros Hhit Hroom Hnull. split; [reflexivity|].
  exists (assembled_event k), (after_exit k w).
  split; [by apply handle_exit_hit|].
  unfold after_exit. cbn [events]. rewrite Hroom. split; [done|].
  cbn [assembled_event event.parent_pid event.ns_parent_pid].
  unfold real_parent_of. rewrite Hnull.
  split; [reflexivity|].
  by rewrite get_task_ns_pid_no_task.
Qed.

Lemma null_parent_reports_zero_witness :
  is_Some (monitored_pids (tracking [4242]) !! exit_pid sample_orphan_exit)
  ∧ core_read_task sample_orphan_exit (bpf_get_current_task sample_orphan_exit)
      task_struct.real_parent = NULL
  ∧ ∃ e w',
      handle_exit sample_orphan_exit exit_ctx (tracking [4242]) = Some (0, w')
      ∧ events w' = [e]
      ∧ event.parent_pid e = 0
      ∧ event.ns_parent_pid e = 0.
Proof.
  assert (Hhit : is_Some (monitored_pids (tracking [4242]) !! exit_pid sample_orphan_exit))
    by (exists 1; vm_compute; reflexivity).
  split; [exact Hhit|]. split; [reflexivity|].
  exact (proj2 (null_parent_reports_zero sample_orphan_exit exit_ctx
                  (tracking [4242]) Hhit eq_refl eq_refl)).
Defined.

(** * Further properties of the handlers *)

(** ** The record of one exit *)

Lemma exit_report_hit k ctx w :
  is_Some (monitored_pids w !! exit_pid k) →
  perf_room k = true →
  exit_report k ctx w = Some (assembled_event k).
Proof.
  intros Hhit Hroom. unfold exit_report. rewrite handle_exit_hit by done.
  unfold after_exit. cbn [events]. rewrite Hroom, length_app. cbn [length].
  replace (length (events w) <? length (events w) + 1)%nat with true
    by (symmetry; apply Nat.ltb_lt; lia).
  apply last_snoc.
Qed.

Lemma exit_report_Some k ctx w e :
  exit_report k ctx w = Some e →
  is_Some (monitored_pids w !! exit_pid k)
  ∧ perf_room k = true ∧ e = assembled_event k.
Proof.
  unfold exit_report. intros H.
  destruct (monitored_pids w !! exit_pid k) as [v|] eqn:Hk.
  - assert (Hhit : is_Some (monitored_pids w !! exit_pid k)) by (rewrite Hk; by eexists).
    rewrite handle_exit_hit in H by (rewrite Hk; by eexists).
    unfold after_exit in H. cbn [events] in H.
    destruct (perf_room k) eqn:Hroom.
    + rewrite length_app in H. cbn [length] in H.
      replace (length (events w) <? length (events w) + 1)%nat with true in H
        by (symmetry; apply Nat.ltb_lt; lia).
      rewrite last_snoc in H. injection H as <-. split; [by eexists|done].
    + rewrite Nat.ltb_irrefl in H. done.
  - rewrite handle_exit_miss in H by done. rewrite Nat.ltb_irrefl in H. done.
Qed.

Lemma land_shiftl8_0x7F status signal :
  0 ≤ signal < 128 → Z.land (wait_status status signal) 0x7F = signal.
Proof.
  intros Hs. unfold wait_status. rewrite Z.land_lor_distr_l.
  change 0x7F with (Z.ones 7). rewrite !Z.land_ones by lia.
  rewrite Z.shiftl_mul_pow2 by lia.
  replace (status * 2 ^ 8) with ((status * 2) * 2 ^ 7) by lia.
  rewrite Z.mod_mul by lia. rewrite Z.mod_small by lia. apply Z.lor_0_l.
Qed.

Lemma shiftr8_wait_status status signal :
  0 ≤ signal < 128 → Z.shiftr (wait_status status signal) 8 = status.
Proof.
  intros Hs. unfold wait_status. rewrite Z.shiftr_lor.
  rewrite Z.shiftr_shiftl_l by lia. change (8 - 8) with 0. rewrite Z.shiftl_0_r.
  rewrite (Z.shiftr_div_pow2 signal) by lia.
  rewrite Z.div_small by lia. apply Z.lor_0_r.
Qed.

Lemma reported_code_packed status signal :
  0 ≤ status < 256 → 0 ≤ signal < 128 →
  reported_code (wait_status status signal)
  = if decide (signal = 0) then status else 128 + signal.
Proof.
  intros Hst Hsig. unfold reported_code.
  rewrite land_shiftl8_0x7F, shiftr8_wait_status by done.
  repeat case_decide; try lia.
  change 0xFF with (Z.ones 8). rewrite Z.land_ones by lia.
  apply Z.mod_small. lia.
Qed.

Lemma reported_code_mask raw :
  reported_code (Z.land raw 0xFF7F) = reported_code raw.
Proof.
  unfold reported_code.
  rewrite <- (Z.land_assoc raw 0xFF7F 0x7F). change (Z.land 0xFF7F 0x7F) with 0x7F.
  rewrite Z.shiftr_land. change (Z.shiftr 0xFF7F 8) with 0xFF.
  rewrite <- (Z.land_assoc _ 0xFF 0xFF). change (Z.land 0xFF 0xFF) with 0xFF.
  reflexivity.
Qed.

(** X1. When the wait status is packed as the decoder expects,
    [(status << 8) | signal] with an 8-bit status and a 7-bit signal, the
    reported code is the status for a normal exit (signal 0) and
    128 + signal for a death by signal, whatever the status bits are then. *)
Theorem exit_code_of_packed_status k ctx w status signal :
  0 ≤ status < 256 →
  0 ≤ signal < 128 →
  to_i32 (core_read_task k (bpf_get_current_task k) task_struct.exit_code)
  = wait_status status signal →
  is_Some (monitored_pids w !! exit_pid k) →
  perf_room k = true →
  ∃ e,
    exit_report k ctx w = Some e
    ∧ event.exit_code e = if decide (signal = 0) then status else 128 + signal.
Proof.
  intros Hst Hsig Hraw Hhit Hroom. exists (assembled_event k).
  split; [by apply exit_report_hit|].
  cbn [assembled_event event.exit_code]. unfold raw_status. rewrite Hraw.
  by apply reported_code_packed.
Qed.

Lemma exit_code_of_packed_status_witness :
  to_i32 (core_read_task (sample_exit 0 0x0309 true)
            (bpf_get_current_task (sample_exit 0 0x0309 true)) task_struct.exit_code)
  = wait_status 3 9
  ∧ is_Some (monitored_pids (tracking [4242]) !! exit_pid (sample_exit 0 0x0309 true))
  ∧ ∃ e,
      exit_report (sample_exit 0 0x0309 true) exit_ctx (tracking [4242]) = Some e
      ∧ event.exit_code e = 137.
Proof.
  assert (Hhit : is_Some (monitored_pids (tracking [4242])
                            !! exit_pid (sample_exit 0 0x0309 true)))
    by (exists 1; vm_compute; reflexivity).
  split; [reflexivity|]. split; [exact Hhit|].
  exact (exit_code_of_packed_status (sample_exit 0 0x0309 true) exit_ctx
           (tracking [4242]) 3 9 ltac:(lia) ltac:(lia) eq_refl Hhit eq_refl).
Defined.

(** X2. The reported code depends only on bits 0-6 and 8-15 of the wait
    status: two exits whose statuses agree under the mask 0xFF7F report the
    same code, so the core-dump flag (bit 7) and everything from bit 16 up
    are dropped. *)
Theorem exit_code_ignores_core_flag_and_high_bits k1 ctx1 w1 k2 ctx2 w2 e1 e2 :
  exit_report k1 ctx1 w1 = Some e1 →
  exit_report k2 ctx2 w2 = Some e2 →
  Z.land (to_i32 (core_read_task k1 (bpf_get_current_task k1) task_struct.exit_code)) 0xFF7F
  = Z.land (to_i32 (core_read_task k2 (bpf_get_current_task k2) task_struct.exit_code)) 0xFF7F →
  event.exit_code e1 = event.exit_code e2.
Proof.
  intros (_ & _ & ->)%exit_report_Some (_ & _ & ->)%exit_report_Some Hmask.
  cbn [assembled_event event.exit_code]. unfold raw_status.
  rewrite <- (reported_code_mask (to_i32 (core_read_task k1 _ _))).
  rewrite <- (reported_code_mask (to_i32 (core_read_task k2 _ _))).
  by rewrite Hmask.
Qed.

Lemma exit_code_ignores_core_flag_and_high_bits_witness :
  ∃ e1 e2,
    exit_report (sample_exit 0 0x0B true) exit_ctx (tracking [4242]) = Some e1
    ∧ exit_report (sample_exit 0 0x1008B true) exit_ctx (tracking [4242]) = Some e2
    ∧ event.exit_code e1 = event.exit_code e2.
Proof.
  assert (Hhit : ∀ st, is_Some (monitored_pids (tracking [4242])
                                 !! exit_pid (sample_exit 0 st true)))
    by (intros st; exists 1; vm_compute; reflexivity).
  exists (assembled_event (sample_exit 0 0x0B true)),
    (assembled_event (sample_exit 0 0x1008B true)).
  pose proof (exit_report_hit (sample_exit 0 0x0B true) exit_ctx (tracking [4242])
                (Hhit _) eq_refl) as H1.
  pose proof (exit_report_hit (sample_exit 0 0x1008B true) exit_ctx (tracking [4242])
                (Hhit _) eq_refl) as H2.
  split; [exact H1|]. split; [exact H2|].
  exact (exit_code_ignores_core_flag_and_high_bits
           (sample_exit 0 0x0B true) exit_ctx (tracking [4242])
           (sample_exit 0 0x1008B true) exit_ctx (tracking [4242]) _ _ H1 H2 eq_refl).
Defined.

(** X3. The decoding is not injective: a death by signal [s] and a normal
    exit with status [128 + s] are reported with the same code. *)
Theorem signal_death_and_high_status_collide k1 ctx1 w1 k2 ctx2 w2 e1 e2 status signal :
  0 ≤ status < 256 →
  1 ≤ signal < 128 →
  to_i32 (core_read_task k1 (bpf_get_current_task k1) task_struct.exit_code)
  = wait_status status signal →
  to_i32 (core_read_task k2 (bpf_get_current_task k2) task_struct.exit_code)
  = wait_status (128 + signal) 0 →
  exit_report k1 ctx1 w1 = Some e1 →
  exit_report k2 ctx2 w2 = Some e2 →
  event.exit_code e1 = 128 + signal ∧ event.exit_code e2 = 128 + signal.
Proof.
  intros Hst Hsig Hr1 Hr2 (_ & _ & ->)%exit_report_Some (_ & _ & ->)%exit_report_Some.
  cbn [assembled_event event.exit_code]. unfold raw_status. rewrite Hr1, Hr2.
  rewrite !reported_code_packed by lia. repeat case_decide; lia.
Qed.

Lemma signal_death_and_high_status_collide_witness :
  ∃ e1 e2,
    exit_report (sample_exit 0 0x0009 true) exit_ctx (tracking [4242]) = Some e1
    ∧ exit_report (sample_exit 0 0x8900 true) exit_ctx (tracking [4242]) = Some e2
    ∧ event.exit_code e1 = 128 + 9 ∧ event.exit_code e2 = 128 + 9.
Proof.
  assert (Hhit : ∀ st, is_Some (monitored_pids (tracking [4242])
                                 !! exit_pid (sample_exit 0 st true)))
    by (intros st; exists 1; vm_compute; reflexivity).
  exists (assembled_event (sample_exit 0 0x0009 true)),
    (assembled_event (sample_exit 0 0x8900 true)).
  pose proof (exit_report_hit (sample_exit 0 0x0009 true) exit_ctx (tracking [4242])
                (Hhit _) eq_refl) as H1.
  pose proof (exit_report_hit (sample_exit 0 0x8900 true) exit_ctx (tracking [4242])
                (Hhit _) eq_refl) as H2.
  split; [exact H1|]. split; [exact H2|].
  exact (signal_death_and_high_status_collide
           (sample_exit 0 0x0009 true) exit_ctx (tracking [4242])
           (sample_exit 0 0x8900 true) exit_ctx (tracking [4242]) _ _ 0 9
           ltac:(lia) ltac:(lia) eq_refl eq_refl H1 H2).
Defined.

(** ** The fork handler on the maps *)

Lemma handle_fork_cases k ctx w :
  (handle_fork k ctx w
   = Some (0, set_monitored_pids (<[fork_child ctx := 1]> (monitored_pids w)) w)
   ∧ scheduler_name (bpf_get_current_comm k)
   ∧ admits (monitored_pids w) (fork_child ctx))
  ∨ handle_fork k ctx w = Some (0, w).
Proof.
  destruct (name_filter (bpf_get_current_comm k)) eqn:Hf.
  - apply name_filter_spec in Hf.
    destruct (admits_dec (monitored_pids w) (fork_child ctx)) as [Ha|Ha].
    + left. split; [by apply handle_fork_admitted | done].
    + right. by apply handle_fork_refused.
  - right. apply handle_fork_no_match. intros Hn.
    apply name_filter_spec in Hn. congruence.
Qed.

(** X4. Whatever the name and the state of the map, the fork handler
    writes nothing to the channel, leaves the entry of every other pid as it
    was and never removes an entry: the only key it can touch is the child's
    pid. *)
Theorem fork_touches_only_the_child k ctx w :
  ∃ w',
    handle_fork k ctx w = Some (0, w')
    ∧ events w' = events w
    ∧ (∀ p, p ≠ to_u32 (trace_event_raw_sched_process_fork.child_pid ctx) →
            monitored_pids w' !! p = monitored_pids w !! p)
    ∧ (∀ p, is_Some (monitored_pids w !! p) → is_Some (monitored_pids w' !! p))
    ∧ (size (monitored_pids w) ≤ size (monitored_pids w') ≤ S (size (monitored_pids w)))%nat.
Proof.
  fold (fork_child ctx).
  destruct (handle_fork_cases k ctx w) as [(-> & _ & _) | ->]; eexists; (split; [done|]).
  - unfold set_monitored_pids. cbn [events monitored_pids].
    split; [done|]. split; [intros p Hp; by rewrite lookup_insert_ne|]. split.
    + intros p Hp. apply lookup_insert_is_Some.
      destruct (decide (fork_child ctx = p)); [by left | by right].
    + destruct (monitored_pids w !! fork_child ctx) as [v|] eqn:Hk.
      * rewrite map_size_insert_Some by (rewrite Hk; by eexists). lia.
      * rewrite map_size_insert_None by done. lia.
  - repeat split; try done; lia.
Qed.

(** X5. The fork handler is idempotent: running it again with the same
    caller and child on the maps it produced changes nothing, so a child
    enrolled twice still holds one entry. *)
Theorem fork_idempotent k ctx w :
  ∃ w',
    handle_fork k ctx w = Some (0, w')
    ∧ handle_fork k ctx w' = Some (0, w').
Proof.
  destruct (handle_fork_cases k ctx w) as [(Hrun & Hn & Ha)|Hrun];
    eexists; (split; [exact Hrun|]); [|done].
  rewrite handle_fork_admitted.
  - unfold set_monitored_pids. cbn [events monitored_pids].
    by rewrite insert_insert_eq.
  - done.
  - left. unfold set_monitored_pids. cbn [monitored_pids].
    rewrite lookup_insert_eq. by eexists.
Qed.

(** X6. Insert and delete are inverse on the tracking map: a matching fork
    of a pid that is not yet tracked and that the map has room for, followed
    by the exit of that pid, leaves the tracking map exactly as it was and
    puts at most the one record of that exit on the channel. *)
Theorem fork_then_exit_restores_map kf ctxf ke ctxe w :
  scheduler_name (bpf_get_current_comm kf) →
  monitored_pids w !! to_u32 (trace_event_raw_sched_process_fork.child_pid ctxf) = None →
  Z.of_nat (size (monitored_pids w)) < max_entries →
  exit_pid ke = to_u32 (trace_event_raw_sched_process_fork.child_pid ctxf) →
  ∃ w1 w2,
    handle_fork kf ctxf w = Some (0, w1)
    ∧ handle_exit ke ctxe w1 = Some (0, w2)
    ∧ monitored_pids w2 = monitored_pids w
    ∧ ((perf_room ke = true ∧ ∃ e, events w2 = events w ++ [e]
                                   ∧ event.pid e = exit_pid ke)
       ∨ (perf_room ke = false ∧ events w2 = events w)).
Proof.
  fold (fork_child ctxf). intros Hn Habsent Hroom Hpid.
  eexists _, _. split; [apply handle_fork_admitted; [done | by right]|].
  split.
  { apply handle_exit_hit. unfold set_monitored_pids. cbn [monitored_pids].
    rewrite Hpid, lookup_insert_eq. by eexists. }
  unfold after_exit, set_monitored_pids. cbn [monitored_pids events].
  split.
  - rewrite Hpid, delete_insert_eq. by apply delete_id.
  - destruct (perf_room ke); [left|right]; (split; [done|]); [|done].
    by eexists.
Qed.

Lemma fork_then_exit_restores_map_witness :
  scheduler_name (bpf_get_current_comm (sample_fork "cron" 4242).1)
  ∧ monitored_pids (tracking [77]) !! 4242 = None
  ∧ Z.of_nat (size (monitored_pids (tracking [77]))) < max_entries
  ∧ ∃ w1 w2,
      handle_fork (sample_fork "cron" 4242).1 (sample_fork "cron" 4242).2
        (tracking [77]) = Some (0, w1)
      ∧ handle_exit (sample_exit 0 0 true) exit_ctx w1 = Some (0, w2)
      ∧ monitored_pids w2 = monitored_pids (tracking [77]).
Proof.
  assert (Hn : scheduler_name (bpf_get_current_comm (sample_fork "cron" 4242).1))
    by (left; reflexivity).
  assert (Hroom : Z.of_nat (size (monitored_pids (tracking [77]))) < max_entries)
    by (vm_compute; reflexivity).
  split; [exact Hn|]. split; [reflexivity|]. split; [exact Hroom|].
  destruct (fork_then_exit_restores_map (sample_fork "cron" 4242).1
              (sample_fork "cron" 4242).2 (sample_exit 0 0 true) exit_ctx
              (tracking [77]) Hn eq_refl Hroom eq_refl)
    as (w1 & w2 & H1 & H2 & H3 & _).
  exists w1, w2. split; [exact H1|]. split; [exact H2|exact H3].
Defined.

(** ** Invariants of sequences of firings *)

(** The three effects a firing can have on the maps. *)
Lemma fire_effect e w :
  ∃ w',
    fire e w = Some (0, w')
    ∧ (w' = w
       ∨ (∃ k ctx,
            e = sched_process_fork k ctx
            ∧ scheduler_name (bpf_get_current_comm k)
            ∧ admits (monitored_pids w) (fork_child ctx)
            ∧ w' = set_monitored_pids (<[fork_child ctx := 1]> (monitored_pids w)) w)
       ∨ (∃ k ctx,
            e = sched_process_exit k ctx
            ∧ is_Some (monitored_pids w !! exit_pid k)
            ∧ w' = after_exit k w)).
Proof.
  destruct e as [k ctx|k ctx]; cbn [fire].
  - destruct (handle_fork_cases k ctx w) as [(Hrun & Hn & Ha)|Hrun];
      eexists; (split; [exact Hrun|]); [|by left].
    right. left. by exists k, ctx.
  - destruct (monitored_pids w !! exit_pid k) as [v|] eqn:Hk.
    + assert (Hhit : is_Some (monitored_pids w !! exit_pid k))
        by (rewrite Hk; by eexists).
      eexists. split; [by apply handle_exit_hit|].
      right. right. by exists k, ctx.
    + eexists. split; [by apply handle_exit_miss|]. by left.
Qed.

Lemma run_cons e evs w w1 rc :
  fire e w = Some (rc, w1) → run (e :: evs) w = run evs w1.
Proof. intros H. cbn [run]. by rewrite H. Qed.

Lemma fork_child_range ctx : 0 ≤ fork_child ctx < 2 ^ 32.
Proof. apply to_u32_range. Qed.

Lemma assembled_event_exit_code_range k :
  0 ≤ event.exit_code (assembled_event k) ≤ 255.
Proof.
  cbn [assembled_event event.exit_code].
  pose proof (reported_code_range (raw_status k)). lia.
Qed.

(** X7. Every entry the handlers ever leave in the tracking map is the
    marker 1 under a key in the u32 range: a sequence of firings keeps this
    true of the map, so lookups by a 32-bit pid see all of it. *)
Theorem run_keeps_markers evs : ∀ w,
  (∀ p v, monitored_pids w !! p = Some v → v = 1 ∧ 0 ≤ p < 2 ^ 32) →
  ∃ w',
    run evs w = Some w'
    ∧ ∀ p v, monitored_pids w' !! p = Some v → v = 1 ∧ 0 ≤ p < 2 ^ 32.
Proof.
  induction evs as [|e evs IH]; intros w Hw; [by exists w|].
  destruct (fire_effect e w) as (w1 & Hfire & Heff).
  rewrite (run_cons _ _ _ _ _ Hfire). apply IH.
  destruct Heff as [->|[(k & ctx & _ & _ & _ & ->)|(k & ctx & _ & _ & ->)]]; [done| |].
  - unfold set_monitored_pids. cbn [monitored_pids]. intros p v.
    destruct (decide (fork_child ctx = p)) as [<-|Hne].
    + rewrite lookup_insert_eq. intros [= <-].
      split; [done | apply fork_child_range].
    + rewrite lookup_insert_ne by done. apply Hw.
  - unfold after_exit. cbn [monitored_pids]. intros p v Hp.
    apply lookup_delete_Some in Hp as [_ Hp]. by apply Hw.
Qed.

Lemma run_keeps_markers_witness :
  ∃ w',
    run sample_history no_maps = Some w'
    ∧ ∀ p v, monitored_pids w' !! p = Some v → v = 1 ∧ 0 ≤ p < 2 ^ 32.
Proof.
  apply (run_keeps_markers sample_history no_maps).
  intros p v Hp. exfalso. cbn [no_maps monitored_pids] in Hp.
  rewrite lookup_empty in Hp. discriminate Hp.
Defined.

(** X8. The tracking map never outgrows its capacity: from a map of at
    most 10240 entries, every sequence of firings ends in a map of at most
    10240 entries. *)
Theorem run_within_capacity evs : ∀ w,
  Z.of_nat (size (monitored_pids w)) ≤ max_entries →
  ∃ w',
    run evs w = Some w'
    ∧ Z.of_nat (size (monitored_pids w')) ≤ max_entries.
Proof.
  induction evs as [|e evs IH]; intros w Hw; [by exists w|].
  destruct (fire_effect e w) as (w1 & Hfire & Heff).
  rewrite (run_cons _ _ _ _ _ Hfire). apply IH.
  destruct Heff as [->|[(k & ctx & _ & _ & Ha & ->)|(k & ctx & _ & Hhit & ->)]]; [done| |].
  - unfold set_monitored_pids. cbn [monitored_pids].
    destruct Ha as [Hpresent|Hlt].
    + by rewrite map_size_insert_Some.
    + destruct (monitored_pids w !! fork_child ctx) as [v|] eqn:Hk.
      * rewrite map_size_insert_Some by (rewrite Hk; by eexists). done.
      * rewrite map_size_insert_None by done. lia.
  - unfold after_exit. cbn [monitored_pids].
    rewrite map_size_delete_Some by done. lia.
Qed.

Lemma run_within_capacity_witness :
  Z.of_nat (size (monitored_pids (tracking (seqZ 1 10240)))) ≤ max_entries
  ∧ ∃ w',
      run sample_history (tracking (seqZ 1 10240)) = Some w'
      ∧ Z.of_nat (size (monitored_pids w')) ≤ max_entries.
Proof.
  assert (H : Z.of_nat (size (monitored_pids (tracking (seqZ 1 10240)))) ≤ max_entries)
    by (apply Z.leb_le; vm_compute; reflexivity).
  split; [exact H|].
  exact (run_within_capacity sample_history (tracking (seqZ 1 10240)) H).
Defined.

Lemma matching_forks_cons e evs :
  matching_forks (e :: evs)
  = ((if is_matching_fork e then 1 else 0) + matching_forks evs)%nat.
Proof.
  unfold matching_forks. cbn [List.filter].
  by destruct (is_matching_fork e).
Qed.

Lemma exits_cons e evs :
  exits (e :: evs) = ((if is_exit e then 1 else 0) + exits evs)%nat.
Proof. unfold exits. cbn [List.filter]. by destruct (is_exit e). Qed.

(** X9. The channel is append-only and every record is paid for by an
    entry: over any sequence of firings the records already on the channel
    stay as a prefix, the number of records plus tracked pids grows by at most
    the number of forks that passed the filter, and at most one record is
    added per exit. *)
Theorem run_conservation evs : ∀ w,
  ∃ w',
    run evs w = Some w'
    ∧ events w `prefix_of` events w'
    ∧ (length (events w') + size (monitored_pids w')
       ≤ length (events w) + size (monitored_pids w) + matching_forks evs)%nat
    ∧ (length (events w') ≤ length (events w) + exits evs)%nat.
Proof.
  induction evs as [|e evs IH]; intros w.
  { exists w. split; [done|]. split; [done|]. cbn. lia. }
  destruct (fire_effect e w) as (w1 & Hfire & Heff).
  rewrite (run_cons _ _ _ _ _ Hfire).
  destruct (IH w1) as (w' & Hrun & Hpre & Hsum & Hlen).
  exists w'. split; [done|].
  rewrite matching_forks_cons, exits_cons.
  destruct Heff as [->|[(k & ctx & -> & Hn & Ha & ->)|(k & ctx & -> & Hhit & ->)]].
  - split; [done|]. split; lia.
  - unfold set_monitored_pids in *. cbn [events monitored_pids] in *.
    cbn [is_matching_fork is_exit].
    apply name_filter_spec in Hn. rewrite Hn.
    split; [done|].
    assert (size (<[fork_child ctx := 1%Z]> (monitored_pids w))
            ≤ S (size (monitored_pids w)))%nat.
    { destruct (monitored_pids w !! fork_child ctx) as [v|] eqn:Hk.
      - rewrite map_size_insert_Some by (rewrite Hk; by eexists). lia.
      - rewrite map_size_insert_None by done. lia. }
    split; lia.
  - unfold after_exit in *. cbn [events monitored_pids] in *.
    cbn [is_matching_fork is_exit].
    rewrite map_size_delete_Some in Hsum by done.
    pose proof (map_size_ne_0_lookup_2 _ _ Hhit) as Hpos.
    destruct (perf_room k).
    + rewrite length_app in *. cbn [length] in *.
      split; [by eapply prefix_app_l|]. split; lia.
    + split; [done|]. split; lia.
Qed.

(** Where a record on the channel comes from. *)
Lemma run_events_origin evs : ∀ w w' e,
  run evs w = Some w' →
  e ∈ events w' →
  e ∈ events w
  ∨ ∃ pre ke ctxe post,
      evs = pre ++ sched_process_exit ke ctxe :: post
      ∧ perf_room ke = true
      ∧ e = assembled_event ke
      ∧ (is_Some (monitored_pids w !! exit_pid ke)
         ∨ ∃ pre1 kf ctxf pre2,
             pre = pre1 ++ sched_process_fork kf ctxf :: pre2
             ∧ scheduler_name (bpf_get_current_comm kf)
             ∧ fork_child ctxf = exit_pid ke).
Proof.
  induction evs as [|e0 evs IH]; intros w w' e.
  { cbn [run]. intros [= <-]. by left. }
  destruct (fire_effect e0 w) as (w1 & Hfire & Heff).
  rewrite (run_cons _ _ _ _ _ Hfire). intros Hrun He.
  destruct (IH w1 w' e Hrun He) as [Hin|(pre & ke & ctxe & post & -> & Hroom & -> & Horigin)].
  - destruct Heff as [->|[(k & ctx & _ & _ & _ & ->)|(k & ctx & -> & Hhit & ->)]];
      [by left | by left |].
    unfold after_exit in Hin. cbn [events] in Hin.
    destruct (perf_room k) eqn:Hroom; [|by left].
    apply elem_of_app in Hin as [Hin|Hin]; [by left|].
    apply list_elem_of_singleton in Hin as ->.
    right. exists [], k, ctx, evs. split; [done|]. split; [done|]. split; [done|].
    by left.
  - right. exists (e0 :: pre), ke, ctxe, post. split; [done|].
    split; [done|]. split; [done|].
    destruct Horigin as [Htracked|(pre1 & kf & ctxf & pre2 & -> & Hn & Hc)].
    + destruct (fire_tracked_inv _ _ _ _ _ Hfire Htracked) as [Hen|[Hw _]]; [|by left].
      right. destruct e0 as [kf ctxf|kf ctxf]; [|done].
      destruct Hen as [Hn Hc]. by exists [], kf, ctxf, pre.
    + right. by exists (e0 :: pre1), kf, ctxf, pre2.
Qed.

(** X10. No record is ever emitted for a process that was not enrolled:
    starting with an empty tracking map and an empty channel, every record on
    the channel after a sequence of firings was assembled at an exit of the
    sequence that had room on the channel, carries that exit's pid and name,
    and that pid was the child of an earlier fork that passed the name
    filter. *)
Theorem reports_only_for_enrolled evs w w' e :
  monitored_pids w = ∅ →
  events w = [] →
  run evs w = Some w' →
  e ∈ events w' →
  ∃ pre1 kf ctxf pre2 ke ctxe post,
    evs = pre1 ++ sched_process_fork kf ctxf :: pre2
               ++ sched_process_exit ke ctxe :: post
    ∧ scheduler_name (bpf_get_current_comm kf)
    ∧ to_u32 (trace_event_raw_sched_process_fork.child_pid ctxf) = exit_pid ke
    ∧ perf_room ke = true
    ∧ event.pid e = exit_pid ke
    ∧ event.comm e = bpf_get_current_comm ke.
Proof.
  intros Hm Hev Hrun He.
  destruct (run_events_origin evs w w' e Hrun He)
    as [Hin|(pre & ke & ctxe & post & -> & Hroom & -> & Horigin)].
  { rewrite Hev in Hin. by apply elem_of_nil in Hin. }
  destruct Horigin as [[v Hv]|(pre1 & kf & ctxf & pre2 & -> & Hn & Hc)].
  { rewrite Hm, lookup_empty in Hv. discriminate. }
  exists pre1, kf, ctxf, pre2, ke, ctxe, post.
  split; [by rewrite <- app_assoc|]. by repeat split.
Qed.

Lemma reports_only_for_enrolled_witness :
  ∃ w' e,
    run sample_history no_maps = Some w'
    ∧ e ∈ events w'
    ∧ ∃ pre1 kf ctxf pre2 ke ctxe post,
        sample_history
        = pre1 ++ sched_process_fork kf ctxf :: pre2
               ++ sched_process_exit ke ctxe :: post
        ∧ scheduler_name (bpf_get_current_comm kf)
        ∧ to_u32 (trace_event_raw_sched_process_fork.child_pid ctxf) = exit_pid ke
        ∧ perf_room ke = true
        ∧ event.pid e = exit_pid ke
        ∧ event.comm e = bpf_get_current_comm ke.
Proof.
  exists (default no_maps (run sample_history no_maps)),
    (assembled_event (exit_of_pid 77)).
  assert (Hrun : run sample_history no_maps
                 = Some (default no_maps (run sample_history no_maps)))
    by (vm_compute; reflexivity).
  assert (Hin : assembled_event (exit_of_pid 77)
                ∈ events (default no_maps (run sample_history no_maps))).
  { replace (events (default no_maps (run sample_history no_maps)))
      with [assembled_event (exit_of_pid 77)] by (vm_compute; reflexivity).
    apply list_elem_of_here. }
  split; [exact Hrun|]. split; [exact Hin|].
  exact (reports_only_for_enrolled sample_history no_maps _ _
           eq_refl eq_refl Hrun Hin).
Defined.

(** X11. Every record on the channel carries an exit code in 0..255: a
    sequence of firings only adds records with such a code. *)
Theorem channel_exit_codes_in_range evs w w' :
  (∀ e, e ∈ events w → 0 ≤ event.exit_code e ≤ 255) →
  run evs w = Some w' →
  ∀ e, e ∈ events w' → 0 ≤ event.exit_code e ≤ 255.
Proof.
  intros Hw Hrun e He.
  destruct (run_events_origin evs w w' e Hrun He)
    as [Hin|(pre & ke & ctxe & post & _ & _ & -> & _)]; [by apply Hw|].
  apply assembled_event_exit_code_range.
Qed.

Lemma channel_exit_codes_in_range_witness :
  ∃ w',
    run sample_history no_maps = Some w'
    ∧ ∀ e, e ∈ events w' → 0 ≤ event.exit_code e ≤ 255.
Proof.
  exists (default no_maps (run sample_history no_maps)).
  assert (Hrun : run sample_history no_maps
                 = Some (default no_maps (run sample_history no_maps)))
    by (vm_compute; reflexivity).
  split; [exact Hrun|].
  apply (channel_exit_codes_in_range sample_history no_maps _); [|exact Hrun].
  intros e He. exfalso. by apply elem_of_nil in He.
Defined.

(** ** Handles that cannot be read, names and thread ids *)

(** X12. The resolver yields 0 when it has nothing to read: for a null or
    dangling task handle, and for a task whose [thread_pid] is null or
    dangling.  It does not fail and does not read out of bounds. *)
Theorem resolver_on_dangling_handles k task :
  (deref_task k task = None → get_task_ns_pid k task = Some 0)
  ∧ (∀ t, deref_task k task = Some t →
          deref_pid k (task_struct.thread_pid t) = None →
          get_task_ns_pid k task = Some 0).
Proof.
  split; [apply get_task_ns_pid_no_task|].
  intros t Ht Hp. unfold get_task_ns_pid, core_read_task. rewrite Ht.
  unfold core_read_pid, core_read_pid_numbers_nr. rewrite Hp. reflexivity.
Qed.

Lemma resolver_on_dangling_handles_witness :
  deref_task sample_no_pid_struct NULL = None
  ∧ get_task_ns_pid sample_no_pid_struct NULL = Some 0
  ∧ deref_task sample_no_pid_struct 0x1000 = Some (sample_task 4242 0x2000 NULL 0)
  ∧ deref_pid sample_no_pid_struct NULL = None
  ∧ get_task_ns_pid sample_no_pid_struct 0x1000 = Some 0.
Proof.
  split; [reflexivity|]. split.
  { exact (proj1 (resolver_on_dangling_handles sample_no_pid_struct NULL) eq_refl). }
  split; [reflexivity|]. split; [reflexivity|].
  exact (proj2 (resolver_on_dangling_handles sample_no_pid_struct 0x1000)
           (sample_task 4242 0x2000 NULL 0) eq_refl eq_refl).
Defined.

(** X13. A tracked exit whose task structure cannot be read is still
    reported: the record carries the pid and the name, and zero for the
    parent pid, both namespace pids and the exit code. *)
Theorem exit_of_unreadable_task k ctx w :
  is_Some (monitored_pids w !! exit_pid k) →
  perf_room k = true →
  deref_task k (bpf_get_current_task k) = None →
  exit_report k ctx w
  = Some {| event.pid := exit_pid k;
            event.parent_pid := 0;
            event.ns_pid := 0;
            event.ns_parent_pid := 0;
            event.exit_code := 0;
            event.comm := bpf_get_current_comm k |}.
Proof.
  intros Hhit Hroom Hnone. rewrite exit_report_hit by done.
  unfold assembled_event, raw_status, real_parent_of, core_read_task.
  rewrite Hnone. change (deref_task k 0) with (deref_task k NULL).
  rewrite get_task_ns_pid_no_task by done.
  rewrite get_task_ns_pid_no_task by reflexivity.
  reflexivity.
Qed.

Lemma exit_of_unreadable_task_witness :
  is_Some (monitored_pids (tracking [77]) !! exit_pid (exit_of_pid 77))
  ∧ deref_task (exit_of_pid 77) (bpf_get_current_task (exit_of_pid 77)) = None
  ∧ exit_report (exit_of_pid 77) exit_ctx (tracking [77])
    = Some {| event.pid := 77;
              event.parent_pid := 0;
              event.ns_pid := 0;
              event.ns_parent_pid := 0;
              event.exit_code := 0;
              event.comm := comm_of_string "job" |}.
Proof.
  assert (Hhit : is_Some (monitored_pids (tracking [77]) !! exit_pid (exit_of_pid 77)))
    by (exists 1; vm_compute; reflexivity).
  split; [exact Hhit|]. split; [reflexivity|].
  exact (exit_of_unreadable_task (exit_of_pid 77) exit_ctx (tracking [77])
           Hhit eq_refl eq_refl).
Defined.

Lemma name_filter_two_patterns (c : vec byte 16) :
  name_filter c = true ↔ has_prefix "cron" c ∨ has_prefix "CRON" c.
Proof.
  rewrite name_filter_spec. unfold scheduler_name. split; [|tauto].
  intros [H|[H|H]]; [by left | by right | left].
  unfold has_prefix in *.
  change (String.length "cron") with (4 `min` String.length "crond")%nat.
  rewrite <- take_take, H. reflexivity.
Qed.

(** X14. The name filter looks at the first four bytes only: a name passes
    exactly when it starts with "cron" or "CRON" (the "crond" test adds
    nothing), so any longer name with such a prefix passes too, and two
    callers whose names agree on the first four bytes are treated alike. *)
Theorem filter_reads_four_bytes k k' ctx w :
  take 4 (vec_to_list (bpf_get_current_comm k))
  = take 4 (vec_to_list (bpf_get_current_comm k')) →
  handle_fork k ctx w = handle_fork k' ctx w
  ∧ (scheduler_name (bpf_get_current_comm k)
     ↔ has_prefix "cron" (bpf_get_current_comm k)
       ∨ has_prefix "CRON" (bpf_get_current_comm k))
  ∧ (has_prefix "cron" (bpf_get_current_comm k) →
     handle_fork k' ctx w
     = (bpf_map_update_elem
          (to_u32 (trace_event_raw_sched_process_fork.child_pid ctx)) 1 BPF_ANY
        ≫= λ _, mret 0) w).
Proof.
  intros Htake.
  assert (Hsame : name_filter (bpf_get_current_comm k)
                  = name_filter (bpf_get_current_comm k')).
  { pose proof (name_filter_two_patterns (bpf_get_current_comm k)) as H1.
    pose proof (name_filter_two_patterns (bpf_get_current_comm k')) as H2.
    unfold has_prefix in *. cbn [String.length] in *. rewrite Htake in H1.
    destruct (name_filter (bpf_get_current_comm k)),
      (name_filter (bpf_get_current_comm k')); try done.
    - symmetry. apply H2, H1. done.
    - apply H1, H2. done. }
  split; [by rewrite !handle_fork_unfold, Hsame|]. split.
  - rewrite <- name_filter_spec. apply name_filter_two_patterns.
  - intros Hp. rewrite handle_fork_unfold, <- Hsame.
    replace (name_filter (bpf_get_current_comm k)) with true; [done|].
    symmetry. apply name_filter_two_patterns. by left.
Qed.

Lemma filter_reads_four_bytes_witness :
  take 4 (vec_to_list (bpf_get_current_comm (sample_fork "cron" 77).1))
  = take 4 (vec_to_list (bpf_get_current_comm (sample_fork "cronolog" 77).1))
  ∧ handle_fork (sample_fork "cron" 77).1 (sample_fork "cron" 77).2 no_maps
    = handle_fork (sample_fork "cronolog" 77).1 (sample_fork "cron" 77).2 no_maps.
Proof.
  split; [reflexivity|].
  exact (proj1 (filter_reads_four_bytes (sample_fork "cron" 77).1
                  (sample_fork "cronolog" 77).1 (sample_fork "cron" 77).2
                  no_maps eq_refl)).
Defined.

Lemma exit_pid_of_tgid k tgid tid :
  0 ≤ tgid < 2 ^ 32 → 0 ≤ tid < 2 ^ 32 →
  current_pid_tgid k = Z.lor (Z.shiftl tgid 32) tid →
  exit_pid k = tgid.
Proof.
  intros Hg Ht Hk. unfold exit_pid, bpf_get_current_pid_tgid, to_u64, to_u32.
  rewrite Hk. change (2 ^ 64) with (2 ^ 64). rewrite <- (Z.land_ones _ 64) by lia.
  rewrite Z.shiftr_land, Z.shiftr_lor, Z.shiftr_shiftl_l by lia.
  change (32 - 32) with 0. rewrite Z.shiftl_0_r.
  rewrite (Z.shiftr_div_pow2 tid) by lia. rewrite (Z.div_small tid) by lia.
  rewrite Z.lor_0_r. change (Z.shiftr (Z.ones 64) 32) with (Z.ones 32).
  rewrite Z.land_ones by lia. rewrite Z.mod_mod by lia. by apply Z.mod_small.
Qed.

(** X15. The exit handler keys on the thread-group id, the upper half of
    [pid_tgid], and ignores the thread id in the lower half: the exit of any
    thread of a tracked process deletes the process's entry and reports under
    the process's pid. *)
Theorem exit_keyed_by_tgid k ctx w tgid tid :
  0 ≤ tgid < 2 ^ 32 →
  0 ≤ tid < 2 ^ 32 →
  current_pid_tgid k = Z.lor (Z.shiftl tgid 32) tid →
  is_Some (monitored_pids w !! tgid) →
  ∃ w',
    handle_exit k ctx w = Some (0, w')
    ∧ monitored_pids w' = delete tgid (monitored_pids w)
    ∧ (perf_room k = true →
       ∃ e, events w' = events w ++ [e] ∧ event.pid e = tgid).
Proof.
  intros Hg Ht Hk Hhit.
  pose proof (exit_pid_of_tgid k tgid tid Hg Ht Hk) as Hpid.
  exists (after_exit k w). split; [apply handle_exit_hit; by rewrite Hpid|].
  unfold after_exit. cbn [monitored_pids events]. rewrite Hpid.
  split; [done|]. intros ->. eexists. split; [done|].
  cbn [assembled_event event.pid]. done.
Qed.

Lemma exit_keyed_by_tgid_witness :
  current_pid_tgid sample_thread_exit = Z.lor (Z.shiftl 4242 32) 4243
  ∧ is_Some (monitored_pids (tracking [4242]) !! 4242)
  ∧ ∃ w',
      handle_exit sample_thread_exit exit_ctx (tracking [4242]) = Some (0, w')
      ∧ monitored_pids w' = delete 4242 (monitored_pids (tracking [4242])).
Proof.
  assert (Hhit : is_Some (monitored_pids (tracking [4242]) !! 4242))
    by (exists 1; vm_compute; reflexivity).
  split; [reflexivity|]. split; [exact Hhit|].
  destruct (exit_keyed_by_tgid sample_thread_exit exit_ctx (tracking [4242])
              4242 4243 ltac:(lia) ltac:(lia) eq_refl Hhit)
    as (w' & Hrun & Hdel & _).
  exists w'. split; [exact Hrun | exact Hdel].
Defined.
